(** * Balance tracker: ingestion endpoint, metric derivation, report endpoint

    A shallow embedding of [pythontracker_18.py]: the Flask handlers
    [update_balance] and [index], the [after_request] hook [add_header] and
    the pandas pipeline of [compute_metrics].

    Conventions of the embedding
    - a [float64] is an IEEE 754 binary64 value ([spec_float] at precision 53,
      maximal exponent 1024), so NaN, the infinities and rounding are the
      ones pandas computes with;
    - a timestamp is its number of nanoseconds since the epoch, in [Z];
    - a data frame is the list of its rows, in frame order; every row has
      an identifier, a string, and a timestamp, while its balance and its
      hostname may be missing; a [Peer ID] column of numbers only, which
      pandas reads as integers and orders by value, is not covered;
    - the rows of a frame are typed: a frame on which a conversion of
      lines 22, 23 or 97 raises has no counterpart here;
    - an external call whose result the program only passes on (a plotly
      figure, the rendered template) is the record of its arguments;
    - a handler either returns or raises: [result]. *)

From Stdlib Require Import ZArith List Ascii String SpecFloat.
From stdpp Require Import base option list gmap strings sorting.

Local Open Scope Z_scope.
Local Open Scope string_scope.

(** ** Binary64 arithmetic *)

Module F64.

Definition prec : Z := 53.
Definition emax : Z := 1024.

Definition float64 : Type := spec_float.

Definition nan : float64 := S754_nan.
Definition zero : float64 := S754_zero false.

(** [float(z)] for an integer [z], rounded to nearest even. *)
Definition of_Z (z : Z) : float64 := binary_normalize prec emax z 0 false.

Definition sub (x y : float64) : float64 := SFsub prec emax x y.
Definition mul (x y : float64) : float64 := SFmul prec emax x y.
Definition div (x y : float64) : float64 := SFdiv prec emax x y.
Definition ltb (x y : float64) : bool := SFltb x y.

Definition is_nan (x : float64) : bool :=
  match x with S754_nan => true | _ => false end.


(** [Series.fillna(0)]: only missing values (NaN) are replaced. *)
Definition fillna0 (x : float64) : float64 := if is_nan x then zero else x.

(** The value [num / 2^pow], for literals such as [0.5]. *)
Definition of_ratio2 (num : Z) (pow : Z) : float64 :=
  binary_normalize prec emax num (- pow) false.

End F64.

Abbreviation float64 := F64.float64.

(** ** Results of fallible code *)

Inductive exn : Type :=
  | FileNotFoundError
  | IsADirectoryError
  | TypeError
  | KeyError
  | BadRequest
  | ParserError
  | OSError
  | ValueError.

Inductive result (A : Type) : Type :=
  | Ok (a : A)
  | Raise (e : exn).
Arguments Ok {A} a.
Arguments Raise {A} e.

#[global] Instance result_ret : MRet result := fun _ a => Ok a.
#[global] Instance result_bind : MBind result := fun _ _ k m =>
  match m with
  | Ok a => k a
  | Raise e => Raise e
  end.

(** ** Frames *)

(** A row of a log once loaded: [Date] parsed to a timestamp, [Balance]
    converted to float (NaN when nothing numeric could be extracted),
    [Hostname] missing ([None]) when the cell is empty. *)
Record record : Type := mk_record {
  Date : Z;
  Peer_ID : string;
  Balance : float64;
  Hostname : option string
}.

(** A row after lines 26-28 of [compute_metrics]. *)
Record rated : Type := Rated {
  base : record;
  Time_Diff_Minutes : float64;
  Quil_Per_Minute : float64
}.

(** A row of the frame [compute_metrics] returns. *)
Record metric : Type := Metric {
  rate : rated;
  Quil_Per_Hour : float64;
  Hour : Z
}.

(** A row of [hourly_growth]. *)
Record hourly : Type := Hourly {
  h_Peer_ID : string;
  h_Hour : Z;
  h_Balance : float64;
  Growth : float64;
  h_Quil_Per_Hour : float64
}.

Definition m_Peer_ID (m : metric) : string := Peer_ID (base (rate m)).
Definition m_Date (m : metric) : Z := Date (base (rate m)).
Definition m_Balance (m : metric) : float64 := Balance (base (rate m)).
Definition m_Hostname (m : metric) : option string := Hostname (base (rate m)).
Definition m_Quil_Per_Minute (m : metric) : float64 := Quil_Per_Minute (rate m).

(** ** pandas primitives *)

Module Pandas.

(** [df.groupby(key)[col].shift()]: every row paired with the previous row
    of its group, in frame order; [last] holds the latest row seen for
    each key. *)
Fixpoint groupby_prev {A} (key : A -> string) (last : gmap string A)
    (df : list A) : list (A * option A) :=
  match df with
  | [] => []
  | r :: rest =>
      (r, last !! key r) :: groupby_prev key (<[key r := r]> last) rest
  end.

(** [Timedelta.total_seconds() / 60] of a difference of [ns] nanoseconds:
    the integer count divided by the number of nanoseconds in a second,
    then by 60, both in floating point. *)
Definition minutes_of_ns (ns : Z) : float64 :=
  F64.div (F64.div (F64.of_Z ns) (F64.of_Z 1000000000)) (F64.of_Z 60).

(** [groupby(key)[Date].diff().dt.total_seconds() / 60] at one row: NaT,
    hence NaN, on the first row of a group. *)
Definition date_diff_minutes (r : record) (prev : option record) : float64 :=
  match prev with
  | None => F64.nan
  | Some p => minutes_of_ns (Date r - Date p)
  end.

(** [groupby(key)[Balance].diff()] at one row. *)
Definition balance_diff (r : record) (prev : option record) : float64 :=
  match prev with
  | None => F64.nan
  | Some p => F64.sub (Balance r) (Balance p)
  end.

(** [Series.dt.floor('h')] on nanosecond timestamps. *)
Definition floor_hour (d : Z) : Z := d - d mod 3600000000000.

(** [GroupBy.last()] on one column of one group: the last value that is
    not null, null when there is none. *)
Definition last_valid {V} (null : V -> bool) (missing : V) (col : list V) : V :=
  fold_left (fun acc v => if null v then acc else v) col missing.

End Pandas.

(** ** Group keys *)

(** pandas orders the groups of a [groupby] by key: identifiers as Python
    orders strings, hour buckets by time. This is the order of identifiers
    that are text. *)
Definition key_le (k1 k2 : string * Z) : Prop :=
  String.le k1.1 k2.1 ∧ (k1.1 = k2.1 → (k1.2 ≤ k2.2)%Z).

#[global] Instance key_le_dec : RelDecision key_le.
Proof. intros k1 k2. unfold key_le. apply _. Defined.

(** The distinct keys of a column, in group order. *)
Definition group_keys `{EqDecision K} (le : relation K) `{!RelDecision le}
    (col : list K) : list K :=
  merge_sort le (remove_dups col).

(** ** Metric derivation *)

(** The [120] of line 31, compared as a float. *)
Definition gap_limit : float64 := F64.of_Z 120.

(** Lines 26-28: the elapsed minutes and the per-minute rate of every row. *)
Definition add_rates (df : list record) : list rated :=
  map (fun '(r, prev) =>
         let td := Pandas.date_diff_minutes r prev in
         Rated r td (F64.fillna0 (F64.div (Pandas.balance_diff r prev) td)))
      (Pandas.groupby_prev Peer_ID ∅ df).

(** Line 31: [df.loc[df['Time_Diff_Minutes'] < 120]]. *)
Definition gap_filter (df : list rated) : list rated :=
  List.filter (fun r => F64.ltb (Time_Diff_Minutes r) gap_limit) df.

(** Lines 34 and 37. *)
Definition add_hourly_columns (df : list rated) : list metric :=
  map (fun r => Metric r (F64.mul (Quil_Per_Minute r) (F64.of_Z 60))
                       (Pandas.floor_hour (Date (base r)))) df.

(** The group key of line 38. *)
Definition bucket (m : metric) : string * Z := (m_Peer_ID m, Hour m).

(** The rows of one (identifier, hour) group, in frame order. *)
Definition bucket_rows (k : string * Z) (df : list metric) : list metric :=
  List.filter (fun m => bool_decide (bucket m = k)) df.

(** Line 38: [df.groupby(['Peer ID', 'Hour'])['Balance'].last().reset_index()]. *)
Definition last_balance_per_hour (df : list metric) : list (string * Z * float64) :=
  map (fun k => (k, Pandas.last_valid F64.is_nan F64.nan
                      (map m_Balance (bucket_rows k df))))
      (group_keys key_le (map bucket df)).

(** Lines 39 and 42: [Growth] is the difference to the previous row of the
    same identifier, NaN filled with 0; [Quil_Per_Hour] repeats it. *)
Definition growth_of (row : string * Z * float64)
    (prev : option (string * Z * float64)) : float64 :=
  F64.fillna0 match prev with
              | None => F64.nan
              | Some p => F64.sub row.2 p.2
              end.

Definition add_growth (rows : list (string * Z * float64)) : list hourly :=
  map (fun '(row, prev) =>
         let g := growth_of row prev in
         Hourly row.1.1 row.1.2 row.2 g g)
      (Pandas.groupby_prev (fun row : string * Z * float64 => row.1.1) ∅ rows).

Definition hourly_growth (df : list metric) : list hourly :=
  add_growth (last_balance_per_hour df).

(** Lines 21-44. The conversions of lines 22-23 are the identity on a
    frame whose [Date] is a timestamp and whose [Balance] is a float. *)
Definition compute_metrics (df : list record) : list metric * list hourly :=
  let df := add_hourly_columns (gap_filter (add_rates df)) in
  (df, hourly_growth df).

(** ** Latest-state table (lines 104-108 of [index]) *)

(** A value of a row handed to the template. *)
Inductive cell : Type :=
  | CInt (z : Z)
  | CFloat (f : float64)
  | CStr (s : string)
  | CNull.

(** A row of [latest_balances]; of the columns [GroupBy.last] aggregates,
    those that line 107 selects, and the group key that [reset_index] turned
    into the column [Peer ID]. *)
Record latest : Type := Latest {
  l_Peer_ID : string;
  l_Hostname : option string;
  l_Balance : float64;
  l_Quil_Per_Minute : float64;
  l_Quil_Per_Hour : float64
}.

(** The rows of one identifier, in frame order. *)
Definition peer_rows (id : string) (df : list metric) : list metric :=
  List.filter (fun m => bool_decide (m_Peer_ID m = id)) df.

Definition last_float (col : list float64) : float64 :=
  Pandas.last_valid F64.is_nan F64.nan col.

Definition last_text (col : list (option string)) : option string :=
  Pandas.last_valid (fun h => bool_decide (h = None)) None col.

(** Lines 104-105: [combined_df.groupby('Peer ID').last().reset_index()],
    with [Hostname] assigned again from the same groups. The groups come
    in the order of their keys, which for text is [String.le]. *)
Definition latest_balances (df : list metric) : list latest :=
  map (fun id =>
         let g := peer_rows id df in
         Latest id (last_text (map m_Hostname g))
                   (last_float (map m_Balance g))
                   (last_float (map m_Quil_Per_Minute g))
                   (last_float (map Quil_Per_Hour g)))
      (group_keys String.le (map m_Peer_ID df)).

Definition text_cell (h : option string) : cell :=
  match h with
  | Some s => CStr s
  | None => CNull
  end.

(** Lines 107-108: the four selected columns, [reset_index()] on the
    resulting range index, [to_dict(orient='records')]. *)
Definition to_records (lb : list latest) : list (list (string * cell)) :=
  imap (fun i l =>
          [("index", CInt (Z.of_nat i));
           ("Hostname", text_cell (l_Hostname l));
           ("Balance", CFloat (l_Balance l));
           ("Quil_Per_Minute", CFloat (l_Quil_Per_Minute l));
           ("Quil_Per_Hour", CFloat (l_Quil_Per_Hour l))])
       lb.

Definition table_of (df : list metric) : list (list (string * cell)) :=
  to_records (latest_balances df).

(** [sort_values('Date')]: rows in ascending [Date]. pandas sorts with
    quicksort, which fixes no order among rows of equal [Date]; they are
    kept here in their frame order, one of the orders pandas may give. *)
Fixpoint insert_by_date (r : record) (df : list record) : list record :=
  match df with
  | [] => [r]
  | x :: rest =>
      if (Date r <? Date x)%Z then r :: df else x :: insert_by_date r rest
  end.

Definition sort_values_Date (df : list record) : list record :=
  fold_left (fun acc r => insert_by_date r acc) df [].

(** ** Charts and page *)

Inductive figure_kind : Type := LineChart | BarChart.

(** A plotly figure, by the arguments it was built from. *)
Record figure : Type := Figure {
  kind : figure_kind;
  frame : list metric;
  x_column : string;
  y_column : string;
  color_column : string;
  title : string;
  layout_template : string
}.

(** Chart markup: the empty string, or [fig.to_html(full_html=False)]. *)
Inductive markup : Type :=
  | NoMarkup
  | FigureHtml (fig : figure).

(** The call [render_template('index.html', ...)], by its arguments. *)
Record page : Type := Page {
  template_name : string;
  table_data : list (list (string * cell));
  balance_graph_html : markup;
  quil_minute_graph_html : markup;
  night_mode : string
}.

Inductive body : Type :=
  | Text (s : string)
  | Rendered (p : page)
  (** the traceback page of Werkzeug's debugger *)
  | Traceback (e : exn).

(** Lines 94-129 of [index], from [data_frames] on, for frames on which
    the conversions of lines 97, 22 and 23 go through: rows that are typed
    already. pandas raises there on dates it cannot parse in one format
    and on a balance it cannot convert; such frames are no
    [list (list record)]. *)
Definition dashboard (night_mode : string) (data_frames : list (list record)) : page :=
  match data_frames with
  | _ :: _ =>
      let combined_df := sort_values_Date (concat data_frames) in
      let '(combined_df, hourly_growth_df) := compute_metrics combined_df in
      let chart_template :=
        if bool_decide (night_mode = "on") then "plotly_dark" else "plotly" in
      Page "index.html" (table_of combined_df)
        (FigureHtml (Figure LineChart combined_df "Date" "Balance" "Peer ID"
                       "Node Balances Over Time" chart_template))
        (FigureHtml (Figure BarChart combined_df "Date" "Quil_Per_Minute" "Peer ID"
                       "Quil Earned Per Minute" chart_template))
        night_mode
  | [] => Page "index.html" [] NoMarkup NoMarkup night_mode
  end.

(** ** Request bodies *)

(** A parsed JSON document, as [request.get_json()] returns it. *)
#[local] Unset Elimination Schemes.
Inductive json : Type :=
  | JNull
  | JBool (b : bool)
  | JInt (z : Z)
  | JFloat (f : float64)
  | JStr (s : string)
  | JArr (items : list json)
  | JObj (fields : gmap string json).
#[local] Set Elimination Schemes.

Module Py.

(** Truth value of [data] in [not data]. *)
Definition truthy (v : json) : bool :=
  match v with
  | JNull => false
  | JBool b => b
  | JInt z => negb (z =? 0)%Z
  | JFloat (S754_zero _) => false
  | JFloat _ => true
  | JStr s => negb (String.eqb s "")
  | JArr items => match items with [] => false | _ => true end
  | JObj fields => negb (bool_decide (fields = ∅))
  end.

Definition is_str (k : string) (v : json) : bool :=
  match v with
  | JStr s => String.eqb s k
  | _ => false
  end.

(** [k in data] for a string [k]: key of a dict, item of a list, substring
    of a string; the other values are not containers. *)
Definition contains (k : string) (data : json) : result bool :=
  match data with
  | JObj fields => Ok (bool_decide (is_Some (fields !! k)))
  | JArr items => Ok (existsb (is_str k) items)
  | JStr s => Ok (bool_decide (is_Some (String.index 0 k s)))
  | _ => Raise TypeError
  end.

(** [data[k]] for a string [k]. *)
Definition getitem (data : json) (k : string) : result json :=
  match data with
  | JObj fields =>
      match fields !! k with
      | Some v => Ok v
      | None => Raise KeyError
      end
  | _ => Raise TypeError
  end.

(** [os.path.join(a, b)]. *)
Definition path_join (a b : string) : string :=
  if String.prefix "/" b then b
  else if bool_decide (a = "") || String.prefix "/" (String.rev a) then a ++ b
  else a ++ "/" ++ b.

(** [str.endswith]. *)
Definition endswith (s suffix : string) : bool :=
  String.prefix (String.rev suffix) (String.rev s).

End Py.

(** ** Storage *)

(** Directories and regular files, by absolute path; paths are compared as
    written (no [.], [..] or links). Permissions and free space are not
    part of it: a file can be written wherever its directory is. *)
Record filesystem : Type := Filesystem {
  dirs : gset string;
  files : gmap string string
}.

Module Os.

Fixpoint drop_slashes (s : string) : string :=
  match s with
  | String c rest => if Ascii.eqb c "/"%char then drop_slashes rest else s
  | "" => ""
  end.

(** [os.path.split], on the reversed path: the name is what follows the
    last [/]; the directory is what precedes it, without its trailing
    slashes unless it consists of slashes only. *)
Fixpoint split_rev (rev_path : string) (name : string) : string * string :=
  match rev_path with
  | "" => ("", name)
  | String c rest =>
      if Ascii.eqb c "/"%char then
        match drop_slashes rev_path with
        | "" => (String.rev rev_path, name)
        | head => (String.rev head, name)
        end
      else split_rev rest (String c name)
  end.

Definition split (path : string) : string * string :=
  split_rev (String.rev path) "".

Definition exists_ (fs : filesystem) (path : string) : bool :=
  bool_decide (path ∈ dirs fs) || bool_decide (is_Some (files fs !! path)).

(** The longest entry name the file system takes, in bytes. *)
Definition NAME_MAX : nat := 255.

Fixpoint has_nul (s : string) : bool :=
  match s with
  | String c rest => Ascii.eqb c Ascii.zero || has_nul rest
  | "" => false
  end.

(** Opening [path] for writing or appending: Python refuses a path with a
    NUL byte; the directory must be there and the entry name must not be
    longer than the file system takes. *)
Definition writable (fs : filesystem) (path : string) : result unit :=
  if has_nul path then Raise ValueError
  else if bool_decide (path ∈ dirs fs) then Raise IsADirectoryError
  else if bool_decide ((split path).1 ∈ dirs fs) then
    if (NAME_MAX <? String.length (split path).2)%nat then Raise OSError
    else Ok ()
  else Raise FileNotFoundError.

(** [with open(path, 'w') as f: f.write(text)]. *)
Definition write (fs : filesystem) (path text : string) : result filesystem :=
  _ ← writable fs path;
  Ok (Filesystem (dirs fs) (<[path := text]> (files fs))).

(** [with open(path, 'a') as f: f.write(text)]. *)
Definition append (fs : filesystem) (path text : string) : result filesystem :=
  _ ← writable fs path;
  Ok (Filesystem (dirs fs) (<[path := default "" (files fs !! path) ++ text]> (files fs))).

(** [os.listdir(path)]: the names of the entries of a directory. *)
Definition listdir (fs : filesystem) (path : string) : result (list string) :=
  if bool_decide (path ∈ dirs fs) then
    Ok (omap (fun p => let '(d, name) := split p in
                       if bool_decide (d = path) then Some name else None)
             (elements (dirs fs) ++ (map_to_list (files fs)).*1)%list)
  else Raise FileNotFoundError.

(** Opening [path] for reading. *)
Definition read (fs : filesystem) (path : string) : result string :=
  if bool_decide (path ∈ dirs fs) then Raise IsADirectoryError
  else match files fs !! path with
       | Some text => Ok text
       | None => Raise FileNotFoundError
       end.

End Os.

(** ** Requests and responses *)

Inductive http_method : Type := GET | HEAD | OPTIONS | POST | OtherMethod.

Record request : Type := Request {
  url_path : string;
  method : http_method;
  (** the query string, [request.args] *)
  args : gmap string string;
  (** what [request.get_json()] does on this request *)
  get_json : result json
}.

(** What a view function hands back: a body and a status code. *)
Definition view_return : Type := body * Z.

(** A handler runs on the storage and returns or raises. *)
Definition handler : Type := request → filesystem → result view_return * filesystem.

Record response : Type := Response {
  r_body : body;
  status : Z;
  headers : gmap string string
}.

(** Line 10. *)
Definition CSV_DIRECTORY : string := "/root/quiltracker".


(** Lines 13-18. *)
Definition add_header (r : response) : response :=
  let h := <["Cache-Control" :=
             "no-store, no-cache, must-revalidate, post-check=0, pre-check=0, max-age=0"]>
             (headers r) in
  let h := <["Pragma" := "no-cache"]> h in
  let h := <["Expires" := "0"]> h in
  Response (r_body r) (status r) h.

(** [try: ... except Exception: return fallback]. *)
Definition try_except (fallback : view_return)
    (run : result view_return * filesystem) : result view_return * filesystem :=
  match run with
  | (Ok v, fs) => (Ok v, fs)
  | (Raise _, fs) => (Ok fallback, fs)
  end.

Section Handlers.

(** [str(v)] of a value that is not a string (Python's formatting of
    numbers, lists and dicts). *)
Variable py_repr : json → string.

(** [pd.read_csv] on the text of a file, with the normalisation of
    [Balance] (lines 89-90), giving the rows with their columns typed. *)
Variable read_csv : string → result (list record).

(** [f'{v}']. *)
Definition py_str (v : json) : string :=
  match v with
  | JStr s => s
  | _ => py_repr v
  end.

Definition not_in (k : string) (data : json) : result bool :=
  b ← Py.contains k data; mret (negb b).

(** [a or b], [b] evaluated only when [a] is false. *)
Definition py_or (a b : result bool) : result bool :=
  x ← a; if x : bool then mret true else b.

(** Line 53. *)
Definition invalid (data : json) : result bool :=
  py_or (mret (negb (Py.truthy data)))
    (py_or (not_in "peer_id" data)
       (py_or (not_in "balance" data)
          (py_or (not_in "timestamp" data)
             (not_in "hostname" data)))).

Definition header_row : string := "Date,Peer ID,Balance,Hostname" ++ "
".

(** Lines 50-71, the body of the [try]; the [print] calls go to the
    console and are left out. *)
Definition update_balance_try : handler := fun req fs =>
  match get_json req with
  | Raise e => (Raise e, fs)
  | Ok data =>
      match invalid data with
      | Raise e => (Raise e, fs)
      | Ok true => (Ok (Text "Invalid data", 400), fs)
      | Ok false =>
          match (peer_id ← Py.getitem data "peer_id";
                 balance ← Py.getitem data "balance";
                 timestamp ← Py.getitem data "timestamp";
                 hostname ← Py.getitem data "hostname";
                 mret (peer_id, balance, timestamp, hostname)) with
          | Raise e => (Raise e, fs)
          | Ok (peer_id, balance, timestamp, hostname) =>
              let log_file :=
                Py.path_join CSV_DIRECTORY
                  ("node_balance_" ++ py_str peer_id ++ ".csv") in
              match (if Os.exists_ fs log_file then Ok fs
                     else Os.write fs log_file header_row) with
              | Raise e => (Raise e, fs)
              | Ok fs1 =>
                  match Os.append fs1 log_file
                          (py_str timestamp ++ "," ++ py_str peer_id ++ ","
                           ++ py_str balance ++ "," ++ py_str hostname ++ "
") with
                  | Raise e => (Raise e, fs1)
                  | Ok fs2 => (Ok (Text "Balance updated", 200), fs2)
                  end
              end
          end
      end
  end.

(** Lines 47-74. *)
Definition update_balance : handler := fun req fs =>
  try_except (Text "Internal Server Error", 500) (update_balance_try req fs).

(** Lines 83-92: the frames of the files whose name ends in [.csv]. *)
Definition load_frames (fs : filesystem) : result (list (list record)) :=
  names ← Os.listdir fs CSV_DIRECTORY;
  mapM (fun file_name =>
          text ← Os.read fs (Py.path_join CSV_DIRECTORY file_name);
          read_csv text)
       (List.filter (fun file_name => Py.endswith file_name ".csv") names).

(** Lines 77-129. *)
Definition index : handler := fun req fs =>
  let night_mode := default "off" (args req !! "night_mode") in
  (data_frames ← load_frames fs;
   mret (Rendered (dashboard night_mode data_frames), 200), fs).

(** ** The application *)













End Handlers.

(** ** Notions the properties are stated with *)


(** The previous row of group [k] among the rows [before] a position. *)
Definition previous_of {A} (key : A → string) (k : string) (before : list A) : option A :=
  last (List.filter (fun x => bool_decide (key x = k)) before).

(** The previous record of the same identifier as the record at position
    [i] of a frame. *)
Definition previous_record (df : list record) (i : nat) : option record :=
  r ← df !! i; previous_of Peer_ID (Peer_ID r) (take i df).



(** ** Sample frames, requests and storages *)

(** One minute, in nanoseconds. *)
Definition minute : Z := 60000000000.

(** One identifier, four records over two hours. *)
Definition two_hours : list record :=
  [mk_record 0 "QmA" (F64.of_Z 10) (Some "node-a");
   mk_record (10 * minute) "QmA" (F64.of_Z 15) (Some "node-a");
   mk_record (65 * minute) "QmA" (F64.of_Z 21) (Some "node-a");
   mk_record (80 * minute) "QmA" (F64.of_Z 22) (Some "node-a")].

(** Two reports of one identifier at the same timestamp. *)
Definition same_instant : list record :=
  [mk_record 0 "QmA" (F64.of_Z 10) (Some "node-a");
   mk_record 0 "QmA" (F64.of_Z 15) (Some "node-a")].

(** A second identifier with two records. *)
Definition node_b : list record :=
  [mk_record (5 * minute) "QmB" (F64.of_Z 100) (Some "node-b");
   mk_record (20 * minute) "QmB" (F64.of_Z 130) (Some "node-b")].

(** A log with a single report. *)
Definition lone_log : list record :=
  [mk_record (7 * minute) "QmC" (F64.of_Z 10) (Some "node-c")].

(** A log whose last row has an empty balance and an empty hostname. *)
Definition fading_log : list record :=
  [mk_record 0 "QmD" (F64.of_Z 10) (Some "node-d");
   mk_record (10 * minute) "QmD" (F64.of_Z 15) (Some "node-d");
   mk_record (20 * minute) "QmD" F64.nan None].

(** The row of [QmB] in the table of [node_b] and [two_hours]. *)
Definition node_b_row : list (string * cell) :=
  [("index", CInt 1);
   ("Hostname", CStr "node-b");
   ("Balance", CFloat (F64.of_Z 130));
   ("Quil_Per_Minute", CFloat (F64.of_Z 2));
   ("Quil_Per_Hour", CFloat (F64.of_Z 120))].

(** The fields line 53 asks for. *)
Definition required_fields : list string :=
  ["peer_id"; "balance"; "timestamp"; "hostname"].

(** The storage directory is missing. *)
Definition no_storage : filesystem := Filesystem ∅ ∅.

(** The storage directory is there and empty. *)
Definition empty_storage : filesystem := Filesystem {[CSV_DIRECTORY]} ∅.

(** The storage directory holds an entry [old.csv] that is a directory. *)
Definition odd_storage : filesystem :=
  Filesystem {[CSV_DIRECTORY; "/root/quiltracker/old.csv"]} ∅.

(** A request for the dashboard. *)
Definition report_request : request := Request "/" GET ∅ (Ok JNull).


(** A report that lacks [hostname]. *)
Definition incomplete_fields : gmap string json :=
  {["peer_id" := JStr "QmA"; "balance" := JStr "12.5";
    "timestamp" := JStr "2024-05-01 10:00:00"]}.

Definition incomplete_report : request :=
  Request "/update_balance" POST ∅ (Ok (JObj incomplete_fields)).

(** A body that is a JSON string naming the four fields. *)
Definition text_report : request :=
  Request "/update_balance" POST ∅
    (Ok (JStr "peer_id balance timestamp hostname")).

(** A report with the four fields. *)
Definition complete_report : request :=
  Request "/update_balance" POST ∅
    (Ok (JObj {["peer_id" := JStr "QmA"; "balance" := JStr "12.5";
                "timestamp" := JStr "2024-05-01 10:00:00";
                "hostname" := JStr "node-a"]})).

(** The storage directory holds one file, which is not a log. *)
Definition notes_only : filesystem :=
  Filesystem {[CSV_DIRECTORY]} {["/root/quiltracker/notes.txt" := "to do"]}.


(** ** Notions the further properties are stated with *)

(** The order [sort_values('Date')] puts rows in. *)
Definition date_le (a b : record) : Prop := (Date a ≤ Date b)%Z.

(** The log of an identifier, as line 61 names it. *)
Definition log_path (py_repr : json → string) (peer_id : json) : string :=
  Py.path_join CSV_DIRECTORY ("node_balance_" ++ py_str py_repr peer_id ++ ".csv").

(** The row line 68 writes for a report. *)
Definition report_row (py_repr : json → string)
    (timestamp peer_id balance hostname : json) : string :=
  py_str py_repr timestamp ++ "," ++ py_str py_repr peer_id ++ ","
  ++ py_str py_repr balance ++ "," ++ py_str py_repr hostname ++ "
".

(** A string without [/]. *)
Fixpoint no_slash (s : string) : bool :=
  match s with
  | "" => true
  | String c rest => negb (Ascii.eqb c "/"%char) && no_slash rest
  end.

(** The fields of [complete_report]. *)
Definition complete_fields : gmap string json :=
  {["peer_id" := JStr "QmA"; "balance" := JStr "12.5";
    "timestamp" := JStr "2024-05-01 10:00:00";
    "hostname" := JStr "node-a"]}.

(** The second record of [two_hours], as metric derivation returns it. *)
Definition second_of_two_hours : metric :=
  Metric (Rated (mk_record (10 * minute) "QmA" (F64.of_Z 15) (Some "node-a"))
                (F64.of_Z 10) (F64.of_ratio2 1 1))
         (F64.of_Z 30) 0.

(** ** Notions the claims on the rollup and on the table are stated with *)



(** The records of one identifier, in frame order. *)
Fixpoint records_of (id : string) (df : list metric) : list metric :=
  match df with
  | [] => []
  | m :: rest =>
      if String.eqb (m_Peer_ID m) id then m :: records_of id rest
      else records_of id rest
  end.


(** [v] is the last value of the column that is not null; it is [missing]
    when every value of the column is null. *)
Definition last_known {V} (null : V → bool) (missing : V) (col : list V) (v : V) : Prop :=
  (Forall (fun x => null x = true) col ∧ v = missing) ∨
  (∃ before after, col = (before ++ v :: after)%list ∧ null v = false ∧
                   Forall (fun x => null x = true) after).

Definition no_hostname (h : option string) : bool := bool_decide (h = None).


(** A body that is the JSON number 5. *)
Definition number_report : request :=
  Request "/update_balance" POST ∅ (Ok (JInt 5)).

(** A body that is no JSON. *)
Definition malformed_report : request :=
  Request "/update_balance" POST ∅ (Raise BadRequest).

(** * Properties *)

(** ** Binary64: operations on numbers never produce NaN out of rounding *)

Section Rounding.

Let nonneg (mrs : shr_record) : Prop := (0 ≤ shr_m mrs)%Z.

Lemma shr_1_nonneg mrs : nonneg mrs → nonneg (shr_1 mrs).
Proof.
  destruct mrs as [m r s]. unfold nonneg. simpl.
  destruct m as [|[p|p|]|[p|p|]]; simpl; lia.
Qed.

Lemma iter_shr_1_nonneg n mrs : nonneg mrs → nonneg (SpecFloat.iter_pos shr_1 n mrs).
Proof.
  revert mrs. induction n as [n IH|n IH|]; intros mrs Hm; simpl.
  - apply IH, IH, shr_1_nonneg, Hm.
  - apply IH, IH, Hm.
  - apply shr_1_nonneg, Hm.
Qed.

Lemma shr_fexp_nonneg m e l :
  (0 ≤ m)%Z → nonneg (shr_fexp F64.prec F64.emax m e l).1.
Proof.
  intros Hm. unfold shr_fexp, shr.
  assert (nonneg (shr_record_of_loc m l)) as H0.
  { unfold nonneg. by destruct l as [|[]]. }
  destruct (_ - e)%Z; simpl; [done| |done].
  by apply iter_shr_1_nonneg.
Qed.

Lemma round_nearest_even_nonneg m l : (0 ≤ m)%Z → (0 ≤ round_nearest_even m l)%Z.
Proof.
  intros Hm. destruct l as [|[]]; simpl; try lia.
  destruct (Z.even m); lia.
Qed.

Lemma binary_round_aux_not_nan sx mx ex lx :
  (0 ≤ mx)%Z →
  F64.is_nan (binary_round_aux F64.prec F64.emax sx mx ex lx) = false.
Proof.
  intros Hm. unfold binary_round_aux.
  pose proof (shr_fexp_nonneg mx ex lx Hm) as H1.
  destruct (shr_fexp F64.prec F64.emax mx ex lx) as [mrs' e'].
  simpl in H1.
  pose proof (shr_fexp_nonneg _ e' loc_Exact
                (round_nearest_even_nonneg _ (loc_of_shr_record mrs') H1)) as H2.
  destruct (shr_fexp F64.prec F64.emax _ e' loc_Exact) as [mrs'' e''].
  simpl in H2. unfold nonneg in H2.
  destruct (shr_m mrs''); [done| |lia].
  by destruct (_ <=? _)%Z.
Qed.

Lemma binary_normalize_not_nan m e :
  F64.is_nan (binary_normalize F64.prec F64.emax m e false) = false.
Proof.
  destruct m as [|p|p]; simpl; [done| |];
    unfold binary_round;
    destruct (shl_align _ _ _) as [mz ez];
    by apply binary_round_aux_not_nan.
Qed.

End Rounding.


Lemma mul_number_not_nan x y :
  F64.is_nan x = false → y ≠ S754_nan →
  (∀ s, y ≠ S754_zero s) → (∀ s, y ≠ S754_infinity s) →
  F64.is_nan (F64.mul x y) = false.
Proof.
  intros Hx Hy Hz Hi.
  destruct y as [sy|sy| |sy my ey]; [by destruct (Hz sy)|by destruct (Hi sy)|done|].
  destruct x as [sx|sx| |sx mx ex]; try done.
  by apply binary_round_aux_not_nan.
Qed.

Lemma fillna0_not_nan x : F64.is_nan (F64.fillna0 x) = false.
Proof. unfold F64.fillna0. by destruct x. Qed.


(** ** Binary64: comparison and division *)

Lemma SFcompare_swap (x y : float64) (c : comparison) :
  SFcompare x y = Some c → SFcompare y x = Some (CompOpp c).
Proof.
  destruct x as [sx|sx| |sx mx ex], y as [sy|sy| |sy my ey]; simpl;
    try (intros [= <-]; by repeat match goal with s : bool |- _ => destruct s end);
    try done.
  intros [= <-]. f_equal.
  pose proof (Pos.compare_cont_antisym mx my Eq) as Hm. simpl in Hm.
  destruct sx, sy; try done;
    rewrite (Z.compare_antisym ex ey);
    destruct (ex ?= ey)%Z; simpl; try done;
    rewrite <- Hm;
    by destruct (Pos.compare_cont Eq mx my).
Qed.

(** [x < y] fails on numbers exactly when [y <= x]. *)
Lemma ltb_false_leb (x y : float64) :
  F64.is_nan x = false → F64.is_nan y = false →
  F64.ltb x y = false ↔ SFleb y x = true.
Proof.
  intros Hx Hy. unfold F64.ltb, SFltb, SFleb.
  destruct (SFcompare x y) as [c|] eqn:E.
  - rewrite (SFcompare_swap _ _ _ E). by destruct c.
  - by destruct x as [sx|sx| |sx mx ex], y as [sy|sy| |sy my ey].
Qed.

Lemma div_by_number_not_nan (x : float64) (s : bool) (m : positive) (e : Z) :
  F64.is_nan x = false → F64.is_nan (F64.div x (S754_finite s m e)) = false.
Proof.
  intros Hx. destruct x as [sx|sx| |sx mx ex]; try done.
  unfold F64.div, SFdiv, SFdiv_core_binary.
  set (m' := match _ with Z0 => Zpos mx | Zpos _ => _ | Zneg _ => 0%Z end).
  assert (0 ≤ m')%Z as Hm'.
  { subst m'. destruct (_ - _ - _)%Z; [lia| |lia]. by apply Z.shiftl_nonneg. }
  pose proof (Z.div_pos m' (Zpos m) Hm' ltac:(lia)) as Hq.
  unfold Z.div in Hq. destruct (Z.div_eucl m' (Zpos m)) as [q r].
  by apply binary_round_aux_not_nan.
Qed.

(** The elapsed minutes between two records are a number or an infinity. *)
Lemma minutes_of_ns_not_nan (ns : Z) : F64.is_nan (Pandas.minutes_of_ns ns) = false.
Proof.
  unfold Pandas.minutes_of_ns.
  apply div_by_number_not_nan, div_by_number_not_nan, binary_normalize_not_nan.
Qed.


(** ** [groupby(...).shift()] pairs a row with the previous row of its group *)

Lemma elem_of_bool_filter {A} (f : A → bool) (l : list A) (x : A) :
  x ∈ List.filter f l ↔ x ∈ l ∧ f x = true.
Proof. by rewrite !list_elem_of_In, filter_In. Qed.

Section GroupbyPrev.
Context {A : Type} (key : A → string).

Lemma previous_of_cons k a before :
  previous_of key k (a :: before) =
    match previous_of key k before with
    | Some x => Some x
    | None => if bool_decide (key a = k) then Some a else None
    end.
Proof.
  unfold previous_of. simpl.
  case_bool_decide; [|by destruct (last _)].
  destruct (List.filter _ before) as [|b l] eqn:E; [done|].
  rewrite last_cons. by destruct (last (b :: l)).
Qed.

Lemma groupby_prev_lookup (seen : gmap string A) df i r prev :
  Pandas.groupby_prev key seen df !! i = Some (r, prev) →
  df !! i = Some r ∧
  prev = match previous_of key (key r) (take i df) with
         | Some x => Some x
         | None => seen !! key r
         end.
Proof.
  revert seen i. induction df as [|a df IH]; intros seen i; [done|].
  destruct i as [|i]; simpl.
  - intros [= <- <-]. done.
  - intros [Hr ->]%IH. split; [done|].
    rewrite previous_of_cons.
    destruct (previous_of key (key r) (take i df)); [done|].
    case_bool_decide as Hk.
    + by rewrite <- Hk, lookup_insert_eq.
    + by rewrite lookup_insert_ne.
Qed.

Lemma groupby_prev_length (seen : gmap string A) df :
  length (Pandas.groupby_prev key seen df) = length df.
Proof. revert seen. induction df; intros; simpl; auto. Qed.

Lemma previous_of_Some k before p :
  previous_of key k before = Some p →
  ∃ j, before !! j = Some p ∧ key p = k ∧
       ∀ j' x, (j < j')%nat → before !! j' = Some x → key x ≠ k.
Proof.
  induction before as [|a before IH]; [done|].
  rewrite previous_of_cons.
  destruct (previous_of key k before) as [x|] eqn:E.
  - intros [= ->]. destruct IH as (j & Hj & Hk & Hlast); [done|].
    exists (S j). split_and!; [done..|].
    intros [|j'] y ?; [lia|]. simpl. apply Hlast. lia.
  - case_bool_decide as Hk; [|done]. intros [= ->].
    exists 0%nat. split_and!; [done..|].
    intros [|j'] y ?; [lia|]. simpl. intros Hy Hky.
    unfold previous_of in E.
    assert (y ∈ List.filter (λ x, bool_decide (key x = k)) before) as Hin.
    { apply elem_of_bool_filter. split.
      - by apply list_elem_of_lookup_2 in Hy.
      - by apply bool_decide_eq_true. }
    apply last_None in E. rewrite E in Hin. by apply not_elem_of_nil in Hin.
Qed.


End GroupbyPrev.

(** ** Group keys are listed once each, in key order *)

#[local] Instance key_le_transitive : Transitive key_le.
Proof.
  intros [s1 z1] [s2 z2] [s3 z3] [H12 Z12] [H23 Z23]. simpl in *.
  split; simpl; [by etrans|].
  intros ->.
  assert (s3 = s2) as -> by (by apply (anti_symm String.le)).
  specialize (Z12 eq_refl). specialize (Z23 eq_refl). lia.
Qed.

#[local] Instance key_le_total : Total key_le.
Proof.
  intros [s1 z1] [s2 z2]. unfold key_le. simpl.
  destruct (decide (s1 = s2)) as [->|Hne].
  - destruct (Z.le_ge_cases z1 z2); [left|right]; split; (done || by intros _; lia).
  - destruct (total String.le s1 s2); [left|right]; split; (done || congruence).
Qed.

#[local] Instance key_le_antisymm : AntiSymm (=) key_le.
Proof.
  intros [s1 z1] [s2 z2] [H12 Z12] [H21 Z21]. simpl in *.
  assert (s1 = s2) as -> by (by apply (anti_symm String.le)).
  f_equal. specialize (Z12 eq_refl). specialize (Z21 eq_refl). lia.
Qed.

Section GroupKeys.
Context `{EqDecision K} (le : relation K) `{!RelDecision le}.
Context `{!Transitive le, !Total le}.

Lemma group_keys_sorted col : StronglySorted le (group_keys le col).
Proof. apply StronglySorted_merge_sort; apply _. Qed.

Lemma group_keys_NoDup col : NoDup (group_keys le col).
Proof.
  unfold group_keys. rewrite merge_sort_Permutation. apply NoDup_remove_dups.
Qed.

Lemma elem_of_group_keys col k : k ∈ group_keys le col ↔ k ∈ col.
Proof.
  unfold group_keys. rewrite merge_sort_Permutation. apply elem_of_remove_dups.
Qed.

(** Of two keys of the listing, the one listed first is the smaller. *)
Lemma group_keys_ordered col i j a b :
  group_keys le col !! i = Some a → group_keys le col !! j = Some b →
  (i < j)%nat → le a b ∧ a ≠ b.
Proof.
  intros Hi Hj Hij. split.
  - pose proof (group_keys_sorted col) as Hs.
    rewrite <- (take_drop_middle _ _ _ Hi) in Hs.
    apply StronglySorted_app_1_r in Hs as Hs'.
    apply StronglySorted_cons in Hs' as [Hall _].
    rewrite Forall_forall in Hall. apply Hall.
    apply list_elem_of_lookup. exists (j - S i)%nat.
    rewrite lookup_drop. rewrite <- Hj. f_equal. lia.
  - intros ->.
    pose proof (NoDup_lookup _ _ _ _ (group_keys_NoDup col) Hi Hj). lia.
Qed.

End GroupKeys.

(** ** The hourly rollup *)

Lemma map_fmap {A B} (f : A → B) (l : list A) : map f l = f <$> l.
Proof. reflexivity. Qed.

Section Hourly.
Variable df : list metric.

Let keys := group_keys key_le (map bucket df).
Let rows := last_balance_per_hour df.
Let hg := hourly_growth df.
Let id_of := fun row : string * Z * float64 => row.1.1.

Lemma rollup_lookup i row :
  hg !! i = Some row →
  keys !! i = Some (h_Peer_ID row, h_Hour row) ∧
  rows !! i = Some (h_Peer_ID row, h_Hour row, h_Balance row) ∧
  h_Balance row =
    last_float (map m_Balance (bucket_rows (h_Peer_ID row, h_Hour row) df)) ∧
  Growth row =
    growth_of (h_Peer_ID row, h_Hour row, h_Balance row)
      (previous_of id_of (h_Peer_ID row) (take i rows)).
Proof.
  unfold hg, hourly_growth, add_growth. rewrite map_fmap, list_lookup_fmap.
  intros ([r prev] & Hi & ->)%fmap_Some.
  apply groupby_prev_lookup in Hi as [Hr ->]. fold id_of rows in Hr |- *.
  rewrite lookup_empty.
  destruct r as [[id h] b]. simpl.
  set (pv := previous_of id_of id (take i rows)).
  assert (match pv with Some x => Some x | None => None end = pv) as ->
    by (by destruct pv).
  split_and!; [| done | | done].
  - unfold rows, last_balance_per_hour in Hr.
    rewrite map_fmap, list_lookup_fmap in Hr.
    apply fmap_Some in Hr as (k & Hk & [= -> ?]). done.
  - unfold rows, last_balance_per_hour in Hr.
    rewrite map_fmap, list_lookup_fmap in Hr.
    apply fmap_Some in Hr as (k & Hk & [= -> ?]). done.
Qed.

(** Rows of the rollup in listing order: same identifier, hours ascend. *)
Lemma rollup_ordered i j a b :
  hg !! i = Some a → hg !! j = Some b → (i < j)%nat →
  h_Peer_ID a = h_Peer_ID b → (h_Hour a < h_Hour b)%Z.
Proof.
  intros (Ha & _)%rollup_lookup (Hb & _)%rollup_lookup Hij Hid.
  destruct (group_keys_ordered key_le _ _ _ _ _ Ha Hb Hij) as [[_ Hle] Hne].
  simpl in *. specialize (Hle Hid).
  destruct (decide (h_Hour a = h_Hour b)) as [Heq|]; [|lia].
  destruct Hne. by rewrite Hid, Heq.
Qed.



End Hourly.

Lemma rollup_buckets (df : list metric) :
  map (λ row, (h_Peer_ID row, h_Hour row)) (hourly_growth df) =
  group_keys key_le (map bucket df).
Proof.
  unfold hourly_growth, add_growth, last_balance_per_hour.
  generalize (group_keys key_le (map bucket df)). intros keys.
  generalize (∅ : gmap string (string * Z * float64)).
  induction keys as [|[id h] keys IH]; intros seen; simpl; [done|].
  f_equal. apply IH.
Qed.



(** ** Clock hours *)




Lemma records_of_filter (id : string) (df : list metric) :
  records_of id df = List.filter (λ m, bool_decide (m_Peer_ID m = id)) df.
Proof.
  induction df as [|m df IH]; [done|]. simpl. rewrite IH.
  destruct (String.eqb_spec (m_Peer_ID m) id) as [Heq|Hne].
  - by rewrite bool_decide_eq_true_2.
  - by rewrite bool_decide_eq_false_2.
Qed.


(** ** The last value of a column *)

Lemma last_valid_snoc {V} (null : V → bool) (missing : V) (col : list V) (v : V) :
  Pandas.last_valid null missing (col ++ [v])%list =
    if null v then Pandas.last_valid null missing col else v.
Proof. unfold Pandas.last_valid. by rewrite fold_left_app. Qed.

Lemma last_valid_known {V} (null : V → bool) (missing : V) (col : list V) :
  last_known null missing col (Pandas.last_valid null missing col).
Proof.
  induction col as [|v col IH] using rev_ind; [by left|].
  rewrite last_valid_snoc. destruct (null v) eqn:Hv.
  - destruct IH as [[Hall ->]|(before & after & Hcol & Hnull & Hafter)].
    + left. split; [|done]. apply Forall_app. by repeat constructor.
    + right. exists before, (after ++ [v])%list. split_and!; [|done|].
      * rewrite Hcol at 1. by rewrite <- app_assoc.
      * apply Forall_app. by repeat constructor.
  - right. exists col, []. by split_and!.
Qed.


(** ** Claims on metric derivation *)





(** The first record of a group has no elapsed time and rate 0; the rate of
    a record that follows another of its identifier at the same timestamp
    is decided by the balance difference alone. *)
Lemma add_rates_lookup (df : list record) (i : nat) (x : rated) :
  add_rates df !! i = Some x →
  df !! i = Some (base x) ∧
  Time_Diff_Minutes x = Pandas.date_diff_minutes (base x) (previous_record df i) ∧
  Quil_Per_Minute x =
    F64.fillna0 (F64.div (Pandas.balance_diff (base x) (previous_record df i))
                         (Time_Diff_Minutes x)).
Proof.
  unfold add_rates. rewrite map_fmap, list_lookup_fmap.
  intros ([r prev] & Hi & ->)%fmap_Some.
  apply groupby_prev_lookup in Hi as [Hr ->]. rewrite lookup_empty.
  unfold previous_record. rewrite Hr. simpl.
  by destruct (previous_of Peer_ID (Peer_ID r) (take i df)).
Qed.

Lemma add_rates_length (df : list record) : length (add_rates df) = length df.
Proof. unfold add_rates. by rewrite length_map, groupby_prev_length. Qed.

(** The comparison of line 31 is false on a missing elapsed time. *)
Lemma gap_filter_drops_first_records (df : list record) (i : nat) (x : rated) :
  add_rates df !! i = Some x →
  previous_record df i = None →
  Time_Diff_Minutes x = F64.nan ∧ Quil_Per_Minute x = F64.zero ∧
  x ∉ gap_filter (add_rates df).
Proof.
  intros (_ & Htd & Hq)%add_rates_lookup Hprev.
  rewrite Hprev in Htd, Hq. simpl in Htd. rewrite Htd in Hq. simpl in Hq.
  split_and!; [done..|].
  unfold gap_filter. rewrite elem_of_bool_filter, Htd. by intros [_ ?].
Qed.

(** On a record that follows another of its identifier, the comparison of
    line 31 fails exactly when the elapsed minutes are 120 or more. *)
Lemma gap_test_on_later_records (df : list record) (i : nat) (x : rated) (p : record) :
  add_rates df !! i = Some x →
  previous_record df i = Some p →
  F64.ltb (Time_Diff_Minutes x) gap_limit = false ↔
  SFleb gap_limit (Time_Diff_Minutes x) = true.
Proof.
  intros (_ & Htd & _)%add_rates_lookup Hprev.
  rewrite Hprev in Htd. simpl in Htd.
  apply ltb_false_leb; [|done].
  rewrite Htd. apply minutes_of_ns_not_nan.
Qed.

(** C6. A single identifier with two records, balance 10 at [t0] and
    balance 15 ten minutes later: the second record gets a per-minute rate
    of 0.5 and an hourly-equivalent rate of 30. *)
Theorem C6_rate_of_second_record (t0 : Z) (id : string) (h0 h1 : option string) :
  let r0 := mk_record t0 id (F64.of_Z 10) h0 in
  let r1 := mk_record (t0 + 10 * minute) id (F64.of_Z 15) h1 in
  let x1 := Rated r1 (F64.of_Z 10) (F64.of_ratio2 1 1) in
  add_rates [r0; r1] !! 1%nat = Some x1 ∧
  (compute_metrics [r0; r1]).1 =
    [Metric x1 (F64.of_Z 30) (Pandas.floor_hour (t0 + 10 * minute))].
Proof.
  intros r0 r1 x1.
  assert (add_rates [r0; r1] = [Rated r0 F64.nan F64.zero; x1]) as Hrates.
  { unfold add_rates. simpl.
    rewrite lookup_empty, lookup_insert_eq. simpl.
    replace (t0 + 10 * minute - t0)%Z with (10 * minute)%Z by lia.
    reflexivity. }
  split; [by rewrite Hrates|].
  unfold compute_metrics. rewrite Hrates. reflexivity.
Qed.

(** C9, as the code has it. Every record gets a rate, and none of the
    steps can fail. The rate is 0 for a record with no previous record of
    its identifier. For a record at the very timestamp of the previous
    one, the rate is 0 when the balance difference is zero or not a
    number, and otherwise the infinity of the sign of that difference:
    [fillna] does not replace infinities. *)
Theorem C9_rate_when_undefined (df : list record) (i : nat) (r : record) :
  df !! i = Some r →
  ∃ x, add_rates df !! i = Some x ∧ base x = r ∧
    (previous_record df i = None → Quil_Per_Minute x = F64.zero) ∧
    (∀ p, previous_record df i = Some p → Date r = Date p →
       Quil_Per_Minute x =
         match F64.sub (Balance r) (Balance p) with
         | S754_finite s _ _ | S754_infinity s => S754_infinity s
         | _ => F64.zero
         end).
Proof.
  intros Hr.
  destruct (add_rates df !! i) as [x|] eqn:Hx.
  2:{ apply lookup_ge_None in Hx. rewrite add_rates_length in Hx.
      apply lookup_lt_Some in Hr. lia. }
  exists x. pose proof Hx as (Hb & Htd & Hq)%add_rates_lookup.
  assert (base x = r) as Hbase by congruence.
  split_and!; [done..| |].
  - intros Hprev. by apply (gap_filter_drops_first_records df i x).
  - intros p Hprev Hdate. rewrite Hq, Htd, Hprev, Hbase. simpl.
    rewrite Hdate, Z.sub_diag.
    by destruct (F64.sub (Balance r) (Balance p)) as [[]|[]| |[]].
Qed.

(** C9 at the first record of [two_hours]. *)
Lemma C9_rate_when_undefined_witness :
  ∃ x, add_rates two_hours !! 0%nat = Some x ∧ Quil_Per_Minute x = F64.zero.
Proof.
  destruct (C9_rate_when_undefined two_hours 0 _ eq_refl) as (x & Hx & _ & H0 & _).
  exists x. split; [done|]. by apply H0.
Defined.

(** C9 does not hold as stated: at elapsed time zero with a changed
    balance the rate is +infinity, not 0. *)
Lemma C9_counterexample :
  ∃ x, add_rates same_instant !! 1%nat = Some x ∧
       Time_Diff_Minutes x = F64.zero ∧
       Quil_Per_Minute x = S754_infinity false ∧
       Quil_Per_Minute x ≠ F64.zero.
Proof. eexists. split; [reflexivity|]. by split_and!. Qed.

(** C2, on the code: the first record of an identifier gets rate 0 and is
    then excluded by the comparison of line 31, its elapsed time being
    missing rather than 120 minutes or more. *)
Theorem C2_first_record_excluded :
  add_rates lone_log =
    [Rated (mk_record (7 * minute) "QmC" (F64.of_Z 10) (Some "node-c"))
           F64.nan F64.zero] ∧
  gap_filter (add_rates lone_log) = [] ∧
  (compute_metrics lone_log).1 = [] ∧
  map (λ m, base (rate m)) (compute_metrics two_hours).1 = drop 1 two_hours.
Proof. split_and!; reflexivity. Qed.

(** ** The latest-state table *)

(** The rates of the frame [compute_metrics] returns are never missing. *)
Lemma working_rates_not_nan (df : list record) (m : metric) :
  m ∈ (compute_metrics df).1 →
  F64.is_nan (m_Quil_Per_Minute m) = false ∧ F64.is_nan (Quil_Per_Hour m) = false.
Proof.
  unfold compute_metrics, add_hourly_columns. simpl. rewrite map_fmap.
  intros (x & -> & Hx)%list_elem_of_fmap.
  apply elem_of_bool_filter in Hx as [[i Hx]%list_elem_of_lookup _].
  apply add_rates_lookup in Hx as (_ & _ & Hq).
  assert (F64.is_nan (Quil_Per_Minute x) = false) as Hnan.
  { rewrite Hq. apply fillna0_not_nan. }
  split; [done|]. simpl.
  by apply mul_number_not_nan.
Qed.

Lemma peer_rows_last (df : list metric) (id : string) :
  id ∈ map m_Peer_ID df →
  ∃ m, last (peer_rows id df) = Some m ∧ m ∈ df ∧ m_Peer_ID m = id.
Proof.
  rewrite map_fmap. intros (m & -> & Hm)%list_elem_of_fmap.
  assert (m ∈ peer_rows (m_Peer_ID m) df) as Hin.
  { apply elem_of_bool_filter. split; [done|]. by apply bool_decide_eq_true. }
  destruct (last (peer_rows (m_Peer_ID m) df)) as [m'|] eqn:E.
  - exists m'. split; [done|].
    apply last_Some_elem_of, elem_of_bool_filter in E as [? ?%bool_decide_eq_true].
    done.
  - apply last_None in E. rewrite E in Hin. by apply not_elem_of_nil in Hin.
Qed.

(** C5, as the code has it. The table computed from the frame metric
    derivation returns has one row per identifier that has a retained
    record. A row has the keys [index], [Hostname], [Balance],
    [Quil_Per_Minute], [Quil_Per_Hour]; [index] is the position of the row
    in the table, not the identifier; the two rates are those of the
    identifier's last retained record; [Hostname] and [Balance] hold the
    last value of their column that is not missing among the identifier's
    retained records, hence the values of the last retained record
    whenever that record has a hostname and a balance. *)
Theorem C5_latest_rows (combined : list record) :
  let working := (compute_metrics combined).1 in
  let table := table_of working in
  ∃ ids : list string,
    NoDup ids ∧
    (∀ id, id ∈ ids ↔ ∃ m, m ∈ working ∧ m_Peer_ID m = id) ∧
    length table = length ids ∧
    ∀ i id, ids !! i = Some id →
      ∃ m hostname balance,
        last (records_of id working) = Some m ∧
        last_known no_hostname None
          (map m_Hostname (records_of id working)) hostname ∧
        last_known F64.is_nan F64.nan
          (map m_Balance (records_of id working)) balance ∧
        table !! i = Some [("index", CInt (Z.of_nat i));
                           ("Hostname", text_cell hostname);
                           ("Balance", CFloat balance);
                           ("Quil_Per_Minute", CFloat (m_Quil_Per_Minute m));
                           ("Quil_Per_Hour", CFloat (Quil_Per_Hour m))] ∧
        (m_Hostname m ≠ None → hostname = m_Hostname m) ∧
        (F64.is_nan (m_Balance m) = false → balance = m_Balance m).
Proof.
  intros working table.
  exists (group_keys String.le (map m_Peer_ID working)).
  split_and!.
  - apply group_keys_NoDup.
  - intros id. rewrite elem_of_group_keys, map_fmap, list_elem_of_fmap. split.
    + intros (m & -> & Hm). by exists m.
    + intros (m & Hm & <-). by exists m.
  - unfold table, table_of, to_records, latest_balances.
    by rewrite length_imap, length_map.
  - intros i id Hid.
    destruct (peer_rows_last working id) as (m & Hlast & Hm & Hmid).
    { eapply elem_of_group_keys, list_elem_of_lookup_2, Hid. }
    exists m, (last_text (map m_Hostname (peer_rows id working))),
           (last_float (map m_Balance (peer_rows id working))).
    rewrite records_of_filter. fold (peer_rows id working).
    apply working_rates_not_nan in Hm as [Hq Hqh].
    pose proof Hlast as [g Hg]%last_Some.
    split_and!.
    + done.
    + apply last_valid_known.
    + apply last_valid_known.
    + unfold table, table_of, to_records, latest_balances.
      rewrite list_lookup_imap, map_fmap, list_lookup_fmap, Hid. simpl.
      do 5 f_equal.
      * rewrite Hg, map_app. unfold last_float. simpl.
        by rewrite last_valid_snoc, Hq.
      * rewrite Hg, map_app. unfold last_float. simpl.
        by rewrite last_valid_snoc, Hqh.
    + intros Hhost. rewrite Hg, map_app. unfold last_text. simpl.
      rewrite last_valid_snoc. by rewrite bool_decide_eq_false_2.
    + intros Hbal. rewrite Hg, map_app. unfold last_float. simpl.
      by rewrite last_valid_snoc, Hbal.
Qed.

(** The table of the page is the table of the frame metric derivation
    returns on the combined frame. *)
Example dashboard_table (mode : string) (f : list record) (fs : list (list record)) :
  table_data (dashboard mode (f :: fs)) =
  table_of (compute_metrics (sort_values_Date (concat (f :: fs)))).1.
Proof. reflexivity. Qed.

(** C5 at the frame of [node_b] and [two_hours]. *)
Lemma C5_latest_rows_witness :
  ∃ ids : list string,
    NoDup ids ∧
    (∀ id, id ∈ ids ↔
           ∃ m, m ∈ (compute_metrics (node_b ++ two_hours)).1 ∧ m_Peer_ID m = id) ∧
    length (table_of (compute_metrics (node_b ++ two_hours)).1) = length ids.
Proof.
  destruct (C5_latest_rows (node_b ++ two_hours)) as (ids & Hnodup & Hids & Hlen & _).
  exists ids. split_and!; [exact Hnodup|exact Hids|exact Hlen].
Defined.

(** C5 does not hold as stated: the rows carry their position under
    [index], and no key or value of a row is the identifier; and the row
    of an identifier whose last retained record lacks a balance and a
    hostname takes these from an earlier record. *)
Lemma C5_counterexample :
  let table := table_data (dashboard "off" [node_b; two_hours]) in
  (map (map fst) table =
     [["index"; "Hostname"; "Balance"; "Quil_Per_Minute"; "Quil_Per_Hour"];
      ["index"; "Hostname"; "Balance"; "Quil_Per_Minute"; "Quil_Per_Hour"]] ∧
   map (λ row, row !! 0%nat) table =
     [Some ("index", CInt 0); Some ("index", CInt 1)] ∧
   Forall (Forall (λ c, c.2 ≠ CStr "QmA" ∧ c.2 ≠ CStr "QmB")) table) ∧
  (map (λ m, base (rate m)) (compute_metrics fading_log).1 = drop 1 fading_log ∧
   table_data (dashboard "off" [fading_log]) =
     [[("index", CInt 0);
       ("Hostname", CStr "node-d");
       ("Balance", CFloat (F64.of_Z 15));
       ("Quil_Per_Minute", CFloat F64.zero);
       ("Quil_Per_Hour", CFloat F64.zero)]]).
Proof.
  split; split_and!; [reflexivity..| |reflexivity|reflexivity].
  vm_compute. repeat constructor; discriminate.
Qed.

(** C1, on the code: an identifier whose log has a single record has no
    row in the latest-state table, its only record being a first one. Of
    the three identifiers of these logs two get a row. *)
Theorem C1_identifier_without_row :
  let logs := [node_b; two_hours; lone_log] in
  let working := (compute_metrics (sort_values_Date (concat logs))).1 in
  remove_dups (map Peer_ID (concat logs)) = ["QmB"; "QmA"; "QmC"] ∧
  map l_Peer_ID (latest_balances working) = ["QmA"; "QmB"] ∧
  length (table_data (dashboard "off" logs)) = 2%nat.
Proof. split_and!; reflexivity. Qed.

(** ** The handlers *)








Lemma invalid_missing (fields : gmap string json) (k : string) :
  k ∈ required_fields → fields !! k = None → invalid (JObj fields) = Ok true.
Proof.
  intros Hk Hmiss. unfold invalid, py_or, not_in, Py.contains.
  destruct (negb (Py.truthy (JObj fields))); [done|]. simpl.
  repeat case_bool_decide; try done. exfalso.
  unfold required_fields in Hk.
  repeat (apply elem_of_cons in Hk as [->|Hk]);
    [..|by apply not_elem_of_nil in Hk];
    rewrite Hmiss in *;
    by match goal with H : is_Some None |- _ => destruct H end.
Qed.

(** C8, as the code has it. An ingestion call whose body is a JSON object
    that lacks one of [peer_id], [balance], [timestamp], [hostname] is
    answered 400 [Invalid data], and the storage is left as it was: no file
    created, no row appended. *)
Theorem C8_missing_field_rejected (py_repr : json → string) (req : request)
    (fs : filesystem) (fields : gmap string json) (k : string) :
  get_json req = Ok (JObj fields) →
  k ∈ required_fields →
  fields !! k = None →
  update_balance py_repr req fs = (Ok (Text "Invalid data", 400), fs).
Proof.
  intros Hjson Hk Hmiss. unfold update_balance, update_balance_try.
  rewrite Hjson. by rewrite (invalid_missing fields k).
Qed.

(** C8 at a report without [hostname]. *)
Lemma C8_missing_field_rejected_witness :
  update_balance (λ _, "") incomplete_report empty_storage =
    (Ok (Text "Invalid data", 400), empty_storage).
Proof.
  apply (C8_missing_field_rejected _ incomplete_report _ incomplete_fields
           "hostname" eq_refl).
  - unfold required_fields. set_solver.
  - vm_compute. reflexivity.
Defined.

(** C8 does not hold as stated: a body that has none of the four fields
    because it is no JSON object, the number 5 here, or no JSON at all, is
    answered 500 and not 400; the storage is as it was. *)
Lemma C8_counterexample :
  update_balance (λ _, "") number_report empty_storage =
    (Ok (Text "Internal Server Error", 500), empty_storage) ∧
  update_balance (λ _, "") malformed_report empty_storage =
    (Ok (Text "Internal Server Error", 500), empty_storage).
Proof. split; vm_compute; reflexivity. Qed.

(** A complete report creates the log with its header and appends a row. *)
Example complete_report_logged :
  let '(rv, fs) := update_balance (λ _, "") complete_report empty_storage in
  rv = Ok (Text "Balance updated", 200) ∧
  files fs !! "/root/quiltracker/node_balance_QmA.csv" =
    Some ("Date,Peer ID,Balance,Hostname" ++ "
" ++ "2024-05-01 10:00:00,QmA,12.5,node-a" ++ "
").
Proof. vm_compute. done. Qed.

(** The membership tests of line 53 also pass on a body that is no object;
    the lookups that follow raise, and the answer is 500. *)
Example text_report_fails :
  update_balance (λ _, "") text_report empty_storage =
    (Ok (Text "Internal Server Error", 500), empty_storage).
Proof. vm_compute. reflexivity. Qed.

(** C4, on the code: the report view has no [try]; what the loading of the
    logs raises leaves [index], here on an entry [old.csv] that cannot be
    read as a file, while the ingestion view answers 500 on a storage it
    cannot write to. *)
Theorem C4_index_raises (read_csv : string → result (list record)) :
  index read_csv report_request odd_storage = (Raise IsADirectoryError, odd_storage) ∧
  update_balance (λ _, "") complete_report no_storage =
    (Ok (Text "Internal Server Error", 500), no_storage).
Proof. split; vm_compute; reflexivity. Qed.

Lemma filter_none {A} (f : A → bool) (l : list A) :
  Forall (λ x, f x = false) l → List.filter f l = [].
Proof.
  induction 1 as [|x l Hx _ IH]; [done|]. simpl. by rewrite Hx.
Qed.

(** C3, as the code has it. When the storage directory can be listed and
    none of its entries has a name ending in [.csv], the report view
    returns the page rendered from an empty table and empty chart markup,
    and the storage is untouched. *)
Theorem C3_no_logs_empty_dashboard (read_csv : string → result (list record))
    (req : request) (fs : filesystem) (names : list string) :
  Os.listdir fs CSV_DIRECTORY = Ok names →
  Forall (λ name, Py.endswith name ".csv" = false) names →
  index read_csv req fs =
    (Ok (Rendered (Page "index.html" [] NoMarkup NoMarkup
                     (default "off" (args req !! "night_mode"))), 200), fs).
Proof.
  intros Hls Hnames. unfold index, load_frames.
  rewrite Hls. simpl. by rewrite (filter_none _ _ Hnames).
Qed.

(** C3 at a storage directory without logs. *)
Lemma C3_no_logs_empty_dashboard_witness :
  index (λ _, Ok []) report_request notes_only =
    (Ok (Rendered (Page "index.html" [] NoMarkup NoMarkup "off"), 200), notes_only).
Proof.
  assert (Os.listdir notes_only CSV_DIRECTORY = Ok ["notes.txt"]) as Hls
    by (vm_compute; reflexivity).
  exact (C3_no_logs_empty_dashboard (λ _, Ok []) report_request notes_only
           ["notes.txt"] Hls ltac:(by repeat constructor)).
Defined.

(** C3 does not hold as stated: with the storage directory missing, the
    listing raises and no page is rendered. *)
Lemma C3_counterexample :
  index (λ _, Ok []) report_request no_storage = (Raise FileNotFoundError, no_storage).
Proof. vm_compute. reflexivity. Qed.

(** * Further properties of the code *)

#[local] Set Warnings "-clear-no-such-hyp".

(** ** Hour buckets (line 37) *)

(** The hour bucket of a timestamp is the start of the clock hour that
    holds it, before the epoch as after; it is a whole number of hours,
    flooring it again changes nothing, and later timestamps never fall in
    earlier buckets. *)
Theorem floor_hour_bucket (d d' : Z) :
  let h := Pandas.floor_hour d in
  (h ≤ d < h + 60 * minute)%Z ∧
  (h mod (60 * minute) = 0)%Z ∧
  Pandas.floor_hour h = h ∧
  ((d ≤ d')%Z → (h ≤ Pandas.floor_hour d')%Z).
Proof.
  unfold Pandas.floor_hour, minute. simpl.
  change (60 * 60000000000)%Z with 3600000000000%Z.
  set (n := 3600000000000%Z).
  assert (0 < n)%Z as Hn by (subst n; lia).
  pose proof (Z.mod_pos_bound d n Hn) as Hd.
  assert (d - d mod n = n * (d / n))%Z as Hfloor.
  { pose proof (Z.div_mod d n ltac:(lia)). lia. }
  assert ((d - d mod n) mod n = 0)%Z as Hmod.
  { rewrite Hfloor, Z.mul_comm. apply Z.mod_mul. lia. }
  split_and!; [lia..|done|rewrite Hmod; lia|].
  intros Hle.
  assert (d' - d' mod n = n * (d' / n))%Z as Hfloor'.
  { pose proof (Z.div_mod d' n ltac:(lia)). lia. }
  rewrite Hfloor, Hfloor'.
  apply Z.mul_le_mono_nonneg_l; [lia|]. by apply Z.div_le_mono.
Qed.

(** ** The frame metric derivation returns (lines 26-37) *)

Lemma bool_filter_sublist {A} (f : A → bool) (l : list A) :
  List.filter f l `sublist_of` l.
Proof.
  induction l as [|a l IH]; simpl; [constructor|].
  destruct (f a); by constructor.
Qed.

Lemma add_rates_base (df : list record) : map base (add_rates df) = df.
Proof.
  unfold add_rates. generalize (∅ : gmap string record).
  induction df as [|r df IH]; intros seen; simpl; [done|].
  f_equal. apply IH.
Qed.

Lemma working_frame_unfold (df : list record) :
  (compute_metrics df).1 = add_hourly_columns (gap_filter (add_rates df)).
Proof. reflexivity. Qed.

Lemma working_records_sublist (df : list record) :
  map (λ m, base (rate m)) (compute_metrics df).1 `sublist_of` df.
Proof.
  rewrite working_frame_unfold. unfold add_hourly_columns.
  rewrite map_map. simpl.
  rewrite <- (add_rates_base df) at 2.
  unfold gap_filter. rewrite !map_fmap.
  apply fmap_sublist, bool_filter_sublist.
Qed.

(** Metric derivation neither invents nor reorders records: the records of
    the frame it returns are records of the frame it was given, in the same
    order. *)
Theorem working_frame_sublist (df : list record) :
  map (λ m, base (rate m)) (compute_metrics df).1 `sublist_of` df.
Proof. apply working_records_sublist. Qed.

(** Every row of the frame metric derivation returns follows, within 120
    minutes, a record of the same identifier that stands before it in the
    frame given; its rates are numbers or infinities, never missing; its
    hourly rate is 60 times its rate; its hour is the bucket of its date. *)
Theorem working_row_invariants (df : list record) (m : metric) :
  m ∈ (compute_metrics df).1 →
  ∃ i p,
    df !! i = Some (base (rate m)) ∧
    previous_record df i = Some p ∧
    Peer_ID p = m_Peer_ID m ∧
    Time_Diff_Minutes (rate m) = Pandas.minutes_of_ns (m_Date m - Date p) ∧
    F64.ltb (Time_Diff_Minutes (rate m)) gap_limit = true ∧
    Quil_Per_Minute (rate m) =
      F64.fillna0 (F64.div (F64.sub (m_Balance m) (Balance p))
                           (Time_Diff_Minutes (rate m))) ∧
    F64.is_nan (Quil_Per_Minute (rate m)) = false ∧
    Quil_Per_Hour m = F64.mul (Quil_Per_Minute (rate m)) (F64.of_Z 60) ∧
    F64.is_nan (Quil_Per_Hour m) = false ∧
    Hour m = Pandas.floor_hour (m_Date m).
Proof.
  intros Hm. pose proof (working_rates_not_nan df m Hm) as [Hq Hqh].
  rewrite working_frame_unfold in Hm. unfold add_hourly_columns in Hm.
  rewrite map_fmap in Hm. apply list_elem_of_fmap in Hm as (x & -> & Hx).
  apply elem_of_bool_filter in Hx as [[i Hx]%list_elem_of_lookup Hlt].
  pose proof Hx as (Hi & Htd & Hrate)%add_rates_lookup.
  destruct (previous_record df i) as [p|] eqn:Hprev.
  2:{ simpl in Htd. by rewrite Htd in Hlt. }
  exists i, p. simpl in *.
  split_and!; try done.
  unfold previous_record in Hprev. rewrite Hi in Hprev. simpl in Hprev.
  by apply previous_of_Some in Hprev as (_ & _ & ? & _).
Qed.

(** ** First records (lines 26 and 31) *)

Section FirstRows.
Context {A : Type} (key : A → string).

(** The rows [groupby(...).shift()] pairs with nothing are the first rows of
    the groups not seen before. *)
Lemma groupby_prev_firsts (seen : gmap string A) (df : list A) :
  length (List.filter (λ rp : A * option A, bool_decide (rp.2 = None))
            (Pandas.groupby_prev key seen df)) =
  size ((list_to_set (key <$> df) : gset string) ∖ dom seen).
Proof.
  revert seen. induction df as [|r df IH]; intros seen.
  - simpl. by rewrite difference_disjoint_L, size_empty by set_solver.
  - rewrite fmap_cons, list_to_set_cons. simpl.
    specialize (IH (<[key r := r]> seen)). rewrite dom_insert_L in IH.
    destruct (seen !! key r) as [x|] eqn:Hr; simpl.
    + rewrite IH. f_equal.
      assert (key r ∈ dom seen) by (apply elem_of_dom; eauto). set_solver.
    + rewrite IH.
      assert (key r ∉ dom seen) by (by apply not_elem_of_dom).
      replace (({[key r]} ∪ list_to_set (key <$> df)) ∖ dom seen)
        with ({[key r]} ∪ (list_to_set (key <$> df) ∖ ({[key r]} ∪ dom seen))
              : gset string).
      2:{ apply set_eq. intros k. destruct (decide (k = key r)); set_solver. }
      assert (({[key r]} : gset string) ##
              list_to_set (key <$> df) ∖ ({[key r]} ∪ dom seen)) as Hdisj
        by set_solver.
      rewrite (size_union _ _ Hdisj).
      by rewrite (size_singleton (key r)).
Qed.

(** Filtering a frame to one group before pairing gives the pairs of that
    group. *)
Lemma groupby_prev_filter (k : string) (seen seen' : gmap string A) (df : list A) :
  seen !! k = seen' !! k →
  List.filter (λ rp : A * option A, bool_decide (key rp.1 = k))
    (Pandas.groupby_prev key seen df) =
  Pandas.groupby_prev key seen' (List.filter (λ r, bool_decide (key r = k)) df).
Proof.
  revert seen seen'. induction df as [|r df IH]; intros seen seen' Hk; [done|].
  simpl. case_bool_decide as Hr; simpl.
  - rewrite Hr, Hk. f_equal. apply IH. by rewrite !lookup_insert_eq.
  - apply IH. by rewrite lookup_insert_ne.
Qed.

End FirstRows.

Lemma filter_drops_length {A B} (f : B → bool) (g : A → B) (skip : A → bool) (l : list A) :
  (∀ a, skip a = true → f (g a) = false) →
  (length (List.filter f (map g l)) + length (List.filter skip l) ≤ length l)%nat.
Proof.
  intros Hskip. induction l as [|a l IH]; simpl; [done|].
  destruct (skip a) eqn:Ha; simpl.
  - rewrite (Hskip a Ha). lia.
  - destruct (f (g a)); simpl; lia.
Qed.

(** Every identifier of a frame loses at least one record, its first: the
    frame metric derivation returns is shorter than the frame given by at
    least the number of distinct identifiers. *)
Theorem working_frame_loses_first_records (df : list record) :
  (length (compute_metrics df).1 + length (remove_dups (map Peer_ID df))
   ≤ length df)%nat.
Proof.
  rewrite working_frame_unfold. unfold add_hourly_columns, gap_filter, add_rates.
  rewrite length_map.
  assert (length (remove_dups (map Peer_ID df)) =
          length (List.filter (λ rp : record * option record, bool_decide (rp.2 = None))
                    (Pandas.groupby_prev Peer_ID ∅ df))) as ->.
  { rewrite groupby_prev_firsts, dom_empty_L, difference_empty_L.
    rewrite <- (size_list_to_set (C:=gset string)) by apply NoDup_remove_dups.
    f_equal. apply set_eq. intros k.
    by rewrite !elem_of_list_to_set, elem_of_remove_dups. }
  etrans; [apply filter_drops_length|by rewrite groupby_prev_length].
  intros [r prev] Hskip. apply bool_decide_eq_true in Hskip. simpl in Hskip.
  by subst prev.
Qed.

Lemma bool_filter_comm {A} (f g : A → bool) (l : list A) :
  List.filter f (List.filter g l) = List.filter g (List.filter f l).
Proof.
  induction l as [|a l IH]; simpl; [done|].
  destruct (f a) eqn:Hf, (g a) eqn:Hg; simpl; rewrite ?Hf, ?Hg, IH; done.
Qed.

Lemma add_rates_filter (df : list record) (id : string) :
  List.filter (λ x, bool_decide (Peer_ID (base x) = id)) (add_rates df) =
  add_rates (List.filter (λ r, bool_decide (Peer_ID r = id)) df).
Proof.
  unfold add_rates.
  rewrite <- (groupby_prev_filter Peer_ID id ∅ ∅ df eq_refl).
  rewrite filter_map_swap. f_equal.
  apply filter_ext. by intros [r prev].
Qed.

(** Metric derivation works identifier by identifier: the rows it returns
    for one identifier are those it returns on that identifier's records
    alone, whatever other records stand between them. *)
Theorem working_frame_per_identifier (df : list record) (id : string) :
  peer_rows id (compute_metrics df).1 =
  (compute_metrics (List.filter (λ r, bool_decide (Peer_ID r = id)) df)).1.
Proof.
  rewrite !working_frame_unfold.
  unfold peer_rows, add_hourly_columns, gap_filter.
  rewrite filter_map_swap. f_equal.
  rewrite bool_filter_comm. f_equal.
  apply add_rates_filter.
Qed.

(** ** The listing of the hourly rollup (lines 38-42) *)

(** The hourly rollup has exactly one row for every (identifier, hour)
    bucket that holds a row of the frame it is built from, and no other;
    the rows of one identifier come by ascending hour; [Quil_Per_Hour]
    repeats [Growth] in every row. *)
Theorem rollup_listing (df : list metric) :
  let buckets := map (λ row, (h_Peer_ID row, h_Hour row)) (hourly_growth df) in
  NoDup buckets ∧
  (∀ i j a b, hourly_growth df !! i = Some a → hourly_growth df !! j = Some b →
              (i < j)%nat → h_Peer_ID a = h_Peer_ID b → (h_Hour a < h_Hour b)%Z) ∧
  (∀ k, k ∈ buckets ↔ ∃ m, m ∈ df ∧ bucket m = k) ∧
  Forall (λ row, h_Quil_Per_Hour row = Growth row) (hourly_growth df).
Proof.
  intros buckets.
  subst buckets. rewrite rollup_buckets.
  split_and!.
  - apply group_keys_NoDup.
  - apply rollup_ordered.
  - intros k. rewrite elem_of_group_keys, map_fmap, list_elem_of_fmap. naive_solver.
  - unfold hourly_growth, add_growth. rewrite map_fmap.
    apply Forall_fmap, Forall_forall. by intros [row prev] _.
Qed.

(** ** The combined frame (lines 96-98) *)

Lemma insert_by_date_perm (r : record) (df : list record) :
  insert_by_date r df ≡ₚ r :: df.
Proof.
  induction df as [|x df IH]; simpl; [done|].
  destruct (Date r <? Date x)%Z; [done|].
  rewrite IH. apply Permutation_swap.
Qed.

Lemma insert_by_date_sorted (r : record) (df : list record) :
  StronglySorted date_le df → StronglySorted date_le (insert_by_date r df).
Proof.
  induction 1 as [|x df Hs IH Hx]; simpl; [by repeat constructor|].
  destruct (Date r <? Date x)%Z eqn:Hlt.
  - apply Z.ltb_lt in Hlt. constructor; [by constructor|].
    constructor; [unfold date_le; lia|].
    eapply Forall_impl; [exact Hx|]. unfold date_le. intros y ?. lia.
  - apply Z.ltb_ge in Hlt. constructor; [done|].
    rewrite insert_by_date_perm. by constructor.
Qed.

Lemma sort_values_Date_sorted (data_frames : list (list record)) :
  sort_values_Date (concat data_frames) ≡ₚ concat data_frames ∧
  StronglySorted date_le (sort_values_Date (concat data_frames)).
Proof.
  generalize (concat data_frames). intros df. unfold sort_values_Date.
  assert (∀ acc, StronglySorted date_le acc →
                 fold_left (λ acc r, insert_by_date r acc) df acc ≡ₚ (acc ++ df)%list ∧
                 StronglySorted date_le
                   (fold_left (λ acc r, insert_by_date r acc) df acc)) as H.
  { induction df as [|r df IH]; intros acc Hacc; simpl.
    - by rewrite app_nil_r.
    - destruct (IH (insert_by_date r acc)) as [Hp Hs];
        [by apply insert_by_date_sorted|].
      split; [|done]. rewrite Hp, insert_by_date_perm.
      simpl. apply Permutation_middle. }
  destruct (H []) as [Hp Hs]; [constructor|]. done.
Qed.

(** The frame handed to metric derivation holds the rows of all the logs,
    each as often as the logs hold it, in ascending order of [Date]. *)
Theorem combined_frame_sorted (data_frames : list (list record)) :
  sort_values_Date (concat data_frames) ≡ₚ concat data_frames ∧
  StronglySorted date_le (sort_values_Date (concat data_frames)).
Proof. apply sort_values_Date_sorted. Qed.

(** ** The size of the latest-state table (lines 104-108) *)

(** The table has as many rows as there are identifiers with a row in the
    frame metric derivation returns, never more than there are identifiers
    in the logs, and its [index] column counts the rows from 0. *)
Theorem table_size (mode : string) (data_frames : list (list record)) :
  let working := (compute_metrics (sort_values_Date (concat data_frames))).1 in
  let table := table_data (dashboard mode data_frames) in
  length table = length (remove_dups (map m_Peer_ID working)) ∧
  (length table ≤ length (remove_dups (map Peer_ID (concat data_frames))))%nat ∧
  map (λ row, row !! 0%nat) table =
    map (λ i, Some ("index", CInt (Z.of_nat i))) (seq 0 (length table)).
Proof.
  intros working table.
  assert (table = table_of working) as ->.
  { subst table working. destruct data_frames as [|f fs]; [done|].
    unfold dashboard.
    by change (compute_metrics (sort_values_Date (concat (f :: fs))))
      with ((compute_metrics (sort_values_Date (concat (f :: fs)))).1,
            hourly_growth (compute_metrics (sort_values_Date (concat (f :: fs)))).1). }
  assert (length (table_of working) = length (remove_dups (map m_Peer_ID working)))
    as Hlen.
  { unfold table_of, to_records, latest_balances, group_keys.
    by rewrite length_imap, length_map, merge_sort_Permutation. }
  split_and!; [done| |].
  - rewrite Hlen. apply submseteq_length, NoDup_submseteq; [apply NoDup_remove_dups|].
    intros id. rewrite !elem_of_remove_dups, !map_fmap, !list_elem_of_fmap.
    intros (m & -> & Hm).
    exists (base (rate m)). split; [done|].
    pose proof (working_records_sublist (sort_values_Date (concat data_frames))) as Hsub.
    destruct (sort_values_Date_sorted data_frames) as [Hperm _].
    rewrite <- Hperm. eapply elem_of_sublist; [|exact Hsub].
    rewrite map_fmap. by apply (list_elem_of_fmap_2 (λ m, base (rate m))).
  - unfold table_of, to_records. rewrite length_imap.
    generalize (latest_balances working). intros lb.
    rewrite map_fmap, fmap_imap.
    rewrite (imap_ext _ (λ j _, Some ("index", CInt (Z.of_nat j)))) by done.
    apply imap_seq_0.
Qed.

(** ** The report view (lines 78-129) *)

Lemma mapM_raises {A B} (f : A → result B) (l : list A) :
  Exists (λ x, ∃ e, f x = Raise e) l → ∃ e, mapM f l = Raise e.
Proof.
  induction 1 as [x l [e He]|x l _ [e IH]]; simpl.
  - rewrite He. by exists e.
  - destruct (f x) as [y|e']; simpl; [|by exists e'].
    rewrite IH. by exists e.
Qed.

Lemma load_frames_listed (read_csv : string → result (list record))
    (fs : filesystem) (names : list string) :
  Os.listdir fs CSV_DIRECTORY = Ok names →
  load_frames read_csv fs =
    mapM (λ file_name, Os.read fs (Py.path_join CSV_DIRECTORY file_name) ≫= read_csv)
         (List.filter (λ file_name, Py.endswith file_name ".csv") names).
Proof. unfold load_frames. by intros ->. Qed.

(** One log that cannot be loaded fails the whole report: when the storage
    directory lists a [.csv] entry that cannot be opened or that
    [read_csv] rejects, the view raises, whatever the other logs hold. *)
Theorem index_fails_on_bad_log (read_csv : string → result (list record))
    (req : request) (fs : filesystem) (names : list string) (name : string) :
  Os.listdir fs CSV_DIRECTORY = Ok names →
  name ∈ names →
  Py.endswith name ".csv" = true →
  (∃ e, (Os.read fs (Py.path_join CSV_DIRECTORY name) ≫= read_csv) = Raise e) →
  ∃ e, index read_csv req fs = (Raise e, fs).
Proof.
  intros Hls Hname Hcsv Hbad. unfold index.
  rewrite (load_frames_listed _ _ _ Hls).
  destruct (mapM_raises
              (λ file_name, Os.read fs (Py.path_join CSV_DIRECTORY file_name) ≫= read_csv)
              (List.filter (λ file_name, Py.endswith file_name ".csv") names))
    as [e He].
  { apply Exists_exists. exists name. split; [|done].
    by apply elem_of_bool_filter. }
  exists e. by rewrite He.
Qed.

(** ** The ingestion view (lines 47-74) *)

Lemma string_app_nil_r (s : string) : s ++ "" = s.
Proof.
  induction s as [|c s IH]; [done|].
  change (String c (s ++ "") = String c s). by rewrite IH.
Qed.

Lemma writable_dirs (fs fs' : filesystem) (path : string) :
  dirs fs' = dirs fs → (Os.writable fs' path) = (Os.writable fs path).
Proof. unfold Os.writable. by intros ->. Qed.

Lemma writable_Ok (fs : filesystem) (path : string) :
  Os.writable fs path = Ok tt → (path ∉ dirs fs) ∧ ((Os.split path).1 ∈ dirs fs).
Proof.
  unfold Os.writable. repeat case_match; try done. intros _.
  split; [by eapply bool_decide_eq_false_1|by eapply bool_decide_eq_true_1].
Qed.

(** What the view does to the storage: nothing, or one write to the log of
    the report's [peer_id] that keeps what the log held. *)
Lemma update_balance_effect (py_repr : json → string) (req : request) (fs : filesystem) :
  let fs' := (update_balance py_repr req fs).2 in
  fs' = fs ∨
  ∃ data peer_id added,
    get_json req = Ok data ∧ Py.getitem data "peer_id" = Ok peer_id ∧
    dirs fs' = dirs fs ∧
    files fs' =
      <[log_path py_repr peer_id :=
          default "" (files fs !! log_path py_repr peer_id) ++ added]> (files fs).
Proof.
  unfold update_balance, update_balance_try, try_except.
  destruct (get_json req) as [data|e]; [|by left].
  destruct (invalid data) as [[]|e]; [by left| |by left].
  destruct (Py.getitem data "peer_id") as [peer_id|e] eqn:Hpid; [|by left].
  destruct (Py.getitem data "balance") as [balance|e]; [|by left].
  destruct (Py.getitem data "timestamp") as [timestamp|e]; [|by left].
  destruct (Py.getitem data "hostname") as [hostname|e]; [|by left].
  simpl. fold (log_path py_repr peer_id).
  set (log_file := log_path py_repr peer_id).
  set (row := (_ ++ _)%string).
  destruct (Os.exists_ fs log_file) eqn:Hex.
  - unfold Os.append. destruct (Os.writable fs log_file); simpl; [|by left].
    right. by exists data, peer_id, row.
  - unfold Os.write.
    destruct (Os.writable fs log_file) eqn:Hw; simpl; [|by left].
    assert (files fs !! log_file = None) as Hnone.
    { unfold Os.exists_ in Hex. apply orb_false_iff in Hex as [_ Hex].
      apply bool_decide_eq_false in Hex.
      by apply eq_None_not_Some. }
    unfold Os.append. rewrite (writable_dirs fs) by done. rewrite Hw. simpl.
    right. exists data, peer_id, (header_row ++ row).
    split_and!; [done..|]. subst log_file.
    by rewrite lookup_insert_eq, insert_insert_eq, Hnone.
Qed.

(** The view is append-only: it creates no directory and removes none,
    and whatever a file of the storage held before a request is the
    beginning of what it holds after it. *)
Theorem update_balance_append_only (py_repr : json → string) (req : request)
    (fs : filesystem) (path text : string) :
  let fs' := (update_balance py_repr req fs).2 in
  files fs !! path = Some text →
  dirs fs' = dirs fs ∧
  ∃ added, files fs' !! path = Some (text ++ added).
Proof.
  intros fs' Hpath. subst fs'.
  destruct (update_balance_effect py_repr req fs)
    as [Heq|(data & peer_id & added & _ & _ & Hdirs & Hfiles)].
  - rewrite Heq. split; [done|]. exists "". by rewrite string_app_nil_r.
  - split; [done|]. rewrite Hfiles.
    destruct (decide (log_path py_repr peer_id = path)) as [->|Hne].
    + exists added. by rewrite lookup_insert_eq, Hpath.
    + exists "". by rewrite lookup_insert_ne, string_app_nil_r.
Qed.

(** The view touches no file but the log of the [peer_id] of the report. *)
Theorem update_balance_other_files (py_repr : json → string) (req : request)
    (fs : filesystem) (path : string) :
  (∀ data peer_id, get_json req = Ok data →
                   Py.getitem data "peer_id" = Ok peer_id →
                   path ≠ log_path py_repr peer_id) →
  files (update_balance py_repr req fs).2 !! path = files fs !! path.
Proof.
  intros Hother.
  destruct (update_balance_effect py_repr req fs)
    as [Heq|(data & peer_id & added & Hdata & Hpid & _ & Heq)];
    rewrite Heq; [done|].
  rewrite lookup_insert_ne; [done|].
  intros Hlog. by apply (Hother data peer_id).
Qed.

(** The view has three answers and no other. *)
Theorem update_balance_answers (py_repr : json → string) (req : request)
    (fs : filesystem) :
  (update_balance py_repr req fs).1 = Ok (Text "Balance updated", 200%Z) ∨
  (update_balance py_repr req fs).1 = Ok (Text "Invalid data", 400%Z) ∨
  (update_balance py_repr req fs).1 = Ok (Text "Internal Server Error", 500%Z).
Proof.
  unfold update_balance, update_balance_try, try_except.
  repeat (case_match; simplify_eq/=; eauto).
Qed.

(** What an accepted report was and what it did. *)
Lemma update_balance_accepted (py_repr : json → string) (req : request)
    (fs : filesystem) :
  (update_balance py_repr req fs).1 = Ok (Text "Balance updated", 200%Z) →
  ∃ fields peer_id balance timestamp hostname,
    get_json req = Ok (JObj fields) ∧
    fields !! "peer_id" = Some peer_id ∧
    fields !! "balance" = Some balance ∧
    fields !! "timestamp" = Some timestamp ∧
    fields !! "hostname" = Some hostname ∧
    Os.writable fs (log_path py_repr peer_id) = Ok () ∧
    (update_balance py_repr req fs).2 =
      Filesystem (dirs fs)
        (<[log_path py_repr peer_id :=
             default header_row (files fs !! log_path py_repr peer_id)
             ++ report_row py_repr timestamp peer_id balance hostname]> (files fs)).
Proof.
  unfold update_balance, update_balance_try, try_except.
  destruct (get_json req) as [data|e]; [|done].
  destruct (invalid data) as [[]|e]; [done| |done].
  destruct data as [| | | | | |fields]; try done.
  simpl Py.getitem.
  destruct (fields !! "peer_id") as [peer_id|] eqn:Hp; [|done].
  destruct (fields !! "balance") as [balance|] eqn:Hb; [|done].
  destruct (fields !! "timestamp") as [timestamp|] eqn:Ht; [|done].
  destruct (fields !! "hostname") as [hostname|] eqn:Hh; [|done].
  simpl. fold (log_path py_repr peer_id).
  fold (report_row py_repr timestamp peer_id balance hostname).
  set (log_file := log_path py_repr peer_id).
  set (row := report_row py_repr timestamp peer_id balance hostname).
  destruct (Os.exists_ fs log_file) eqn:Hex.
  - unfold Os.append.
    destruct (Os.writable fs log_file) as [[]|e] eqn:Hw; simpl; [|done].
    intros _. exists fields, peer_id, balance, timestamp, hostname.
    split_and!; [done..|].
    apply writable_Ok in Hw as [Hnodir _].
    unfold Os.exists_ in Hex. rewrite bool_decide_eq_false_2 in Hex by done.
    apply bool_decide_eq_true in Hex as [text Hex].
    subst log_file row. by rewrite Hex.
  - unfold Os.write.
    destruct (Os.writable fs log_file) as [[]|e] eqn:Hw; simpl; [|done].
    unfold Os.append. rewrite (writable_dirs fs) by done. rewrite Hw. simpl.
    intros _. exists fields, peer_id, balance, timestamp, hostname.
    split_and!; [done..|].
    unfold Os.exists_ in Hex. apply orb_false_iff in Hex as [_ Hex].
    apply bool_decide_eq_false in Hex. apply eq_None_not_Some in Hex.
    subst log_file row. by rewrite lookup_insert_eq, insert_insert_eq, Hex.
Qed.

(** A report that is answered 200 carried its four fields in a JSON
    object, and its log then holds what it held before, or the header row
    if it was not there, followed by the row of the report; the rest of the
    storage is as it was. *)
Theorem update_balance_logs_report (py_repr : json → string) (req : request)
    (fs : filesystem) :
  (update_balance py_repr req fs).1 = Ok (Text "Balance updated", 200%Z) →
  ∃ fields peer_id balance timestamp hostname,
    get_json req = Ok (JObj fields) ∧
    fields !! "peer_id" = Some peer_id ∧
    fields !! "balance" = Some balance ∧
    fields !! "timestamp" = Some timestamp ∧
    fields !! "hostname" = Some hostname ∧
    (update_balance py_repr req fs).2 =
      Filesystem (dirs fs)
        (<[log_path py_repr peer_id :=
             default header_row (files fs !! log_path py_repr peer_id)
             ++ report_row py_repr timestamp peer_id balance hostname]> (files fs)).
Proof.
  intros (fields & peer_id & balance & timestamp & hostname & Hjson & Hp & Hb &
          Ht & Hh & _ & Hfs)%update_balance_accepted.
  by exists fields, peer_id, balance, timestamp, hostname.
Qed.

(** ** Paths (lines 61, 84-85) *)

Lemma rev_app_app (a b acc : string) :
  String.rev_app (a ++ b) acc = String.rev_app b (String.rev_app a acc).
Proof.
  revert acc. induction a as [|c a IH]; intros acc; [done|].
  change (String.rev_app (a ++ b) (String c acc) =
          String.rev_app b (String.rev_app a (String c acc))).
  apply IH.
Qed.

Lemma rev_app_acc (s acc : string) :
  String.rev_app s acc = String.rev_app s "" ++ acc.
Proof.
  revert acc. induction s as [|c s IH]; intros acc; [done|].
  change (String.rev_app s (String c acc) = String.rev_app s (String c "") ++ acc).
  rewrite (IH (String c acc)), (IH (String c "")).
  generalize (String.rev_app s ""). intros t.
  induction t as [|d t IHt]; [done|].
  change (String d (t ++ String c acc) = String d ((t ++ String c "") ++ acc)).
  by rewrite IHt.
Qed.

Lemma rev_app_rev_app (s a b : string) :
  String.rev_app (String.rev_app s a) b = String.rev_app a (s ++ b).
Proof.
  revert a b. induction s as [|c s IH]; intros a b; [done|].
  change (String.rev_app (String.rev_app s (String c a)) b =
          String.rev_app a (String c (s ++ b))).
  by rewrite IH.
Qed.

Lemma rev_involutive (s : string) : String.rev (String.rev s) = s.
Proof.
  unfold String.rev. rewrite rev_app_rev_app. simpl.
  apply string_app_nil_r.
Qed.

Lemma no_slash_rev_app (s acc : string) :
  no_slash (String.rev_app s acc) = no_slash s && no_slash acc.
Proof.
  revert acc. induction s as [|c s IH]; intros acc; [done|].
  simpl. rewrite IH. simpl. by destruct (Ascii.eqb c "/"), (no_slash s).
Qed.

Lemma no_slash_app (a b : string) : no_slash (a ++ b) = no_slash a && no_slash b.
Proof.
  induction a as [|c a IH]; [done|].
  change (negb (Ascii.eqb c "/") && no_slash (a ++ b) =
          negb (Ascii.eqb c "/") && no_slash a && no_slash b).
  rewrite IH. by destruct (Ascii.eqb c "/").
Qed.

Lemma split_rev_no_slash (t rest acc : string) :
  no_slash t = true →
  Os.split_rev (t ++ rest) acc = Os.split_rev rest (String.rev_app t acc).
Proof.
  revert acc. induction t as [|c t IH]; intros acc Ht; [done|].
  simpl in Ht. apply andb_true_iff in Ht as [Hc Ht].
  change (Os.split_rev (String c (t ++ rest)) acc =
          Os.split_rev rest (String.rev_app t (String c acc))).
  simpl. rewrite (negb_true_iff _) in Hc. rewrite Hc. by apply IH.
Qed.

(** Joining the storage directory with an entry name that has no [/] and
    splitting the path again gives the directory and the name back. *)
Lemma split_join_entry (name : string) :
  no_slash name = true →
  Os.split (CSV_DIRECTORY ++ "/" ++ name) = (CSV_DIRECTORY, name).
Proof.
  intros Hname. unfold Os.split, String.rev.
  rewrite (rev_app_app CSV_DIRECTORY ("/" ++ name)).
  change (String.rev_app ("/" ++ name) (String.rev_app CSV_DIRECTORY ""))
    with (String.rev_app name (String "/" (String.rev_app CSV_DIRECTORY ""))).
  rewrite rev_app_acc.
  rewrite split_rev_no_slash by (by rewrite no_slash_rev_app, Hname).
  fold (String.rev name). fold (String.rev (String.rev name)).
  rewrite rev_involutive. reflexivity.
Qed.

Lemma endswith_csv (s : string) : Py.endswith (s ++ ".csv") ".csv" = true.
Proof.
  unfold Py.endswith, String.rev. rewrite rev_app_app.
  change (String.rev_app ".csv" (String.rev_app s ""))
    with ("vsc." ++ String.rev_app s "").
  change (String.rev_app ".csv" "") with "vsc.".
  generalize (String.rev_app s ""). intros t.
  apply String.prefix_correct. by destruct t.
Qed.

(** ** From ingestion to report *)

Lemma log_path_of_text (py_repr : json → string) (s : string) :
  log_path py_repr (JStr s) = CSV_DIRECTORY ++ "/" ++ ("node_balance_" ++ s ++ ".csv").
Proof. reflexivity. Qed.

(** A report accepted for an identifier without [/] is in reach of the
    report view: the storage directory then lists the log under a name
    ending in [.csv], and reading that entry gives the earlier text of the
    log, or the header row, followed by the row of the report. *)
Theorem accepted_report_is_listed (py_repr : json → string) (req : request)
    (fs : filesystem) (fields : gmap string json) (s : string)
    (balance timestamp hostname : json) :
  get_json req = Ok (JObj fields) →
  fields !! "peer_id" = Some (JStr s) →
  fields !! "balance" = Some balance →
  fields !! "timestamp" = Some timestamp →
  fields !! "hostname" = Some hostname →
  no_slash s = true →
  (update_balance py_repr req fs).1 = Ok (Text "Balance updated", 200%Z) →
  let fs' := (update_balance py_repr req fs).2 in
  let name := "node_balance_" ++ s ++ ".csv" in
  ∃ names,
    Os.listdir fs' CSV_DIRECTORY = Ok names ∧
    name ∈ names ∧
    Py.endswith name ".csv" = true ∧
    Os.read fs' (Py.path_join CSV_DIRECTORY name) =
      Ok (default header_row (files fs !! log_path py_repr (JStr s))
          ++ report_row py_repr timestamp (JStr s) balance hostname).
Proof.
  intros Hjson Hp Hb Ht Hh Hs Haccepted fs' name.
  assert (no_slash name = true) as Hname.
  { subst name. by rewrite !no_slash_app, Hs. }
  assert (Os.split (log_path py_repr (JStr s)) = (CSV_DIRECTORY, name)) as Hsplit.
  { rewrite log_path_of_text. by apply split_join_entry. }
  assert (Py.path_join CSV_DIRECTORY name = log_path py_repr (JStr s)) as Hjoin
    by reflexivity.
  destruct (update_balance_accepted py_repr req fs Haccepted)
    as (fields' & peer_id & balance' & timestamp' & hostname' & Hjson' & Hp' &
        Hb' & Ht' & Hh' & Hw & Hrun).
  rewrite Hjson in Hjson'. injection Hjson' as <-.
  rewrite Hp in Hp'. injection Hp' as <-.
  rewrite Hb in Hb'. injection Hb' as <-.
  rewrite Ht in Ht'. injection Ht' as <-.
  rewrite Hh in Hh'. injection Hh' as <-.
  apply writable_Ok in Hw as [Hnodir Hdir]. rewrite Hsplit in Hdir. simpl in Hdir.
  subst fs'. rewrite Hrun. simpl.
  unfold Os.listdir, Os.read. simpl.
  rewrite (bool_decide_eq_true_2 _ Hdir). eexists. split; [done|].
  rewrite Hjoin, (bool_decide_eq_false_2 _ Hnodir), lookup_insert_eq.
  split_and!; [|exact (endswith_csv ("node_balance_" ++ s))|done].
  apply list_elem_of_omap. exists (log_path py_repr (JStr s)). split.
  - apply elem_of_app. right. apply list_elem_of_fmap.
    eexists (_, _). split; [done|].
    apply elem_of_map_to_list. apply lookup_insert_eq.
  - rewrite Hsplit. by rewrite bool_decide_eq_true_2.
Qed.

(** ** The response hook (lines 13-18) *)

(** The hook changes nothing but the three cache headers: body, status and
    every other header are kept; and applying it twice is applying it
    once. *)
Theorem add_header_keeps (r : response) :
  r_body (add_header r) = r_body r ∧
  status (add_header r) = status r ∧
  (∀ k, k ∉ ["Cache-Control"; "Pragma"; "Expires"] →
        headers (add_header r) !! k = headers r !! k) ∧
  add_header (add_header r) = add_header r.
Proof.
  split_and!; [done..| |].
  - intros k Hk. unfold add_header. simpl.
    rewrite !lookup_insert_ne; [done|..]; intros <-; apply Hk; set_solver.
  - unfold add_header. simpl. f_equal. apply map_eq. intros k.
    destruct (decide (k = "Expires")) as [->|];
      [by rewrite !lookup_insert_eq|rewrite !(lookup_insert_ne _ "Expires") by done].
    destruct (decide (k = "Pragma")) as [->|];
      [by rewrite !lookup_insert_eq|rewrite !(lookup_insert_ne _ "Pragma") by done].
    destruct (decide (k = "Cache-Control")) as [->|];
      [by rewrite !lookup_insert_eq|by rewrite !lookup_insert_ne by done].
Qed.

(** ** Gap exclusion and the identifiers of the table *)

Lemma ltb_true_leb (x y : float64) :
  F64.is_nan x = false → F64.is_nan y = false →
  F64.ltb x y = true ↔ SFleb y x = false.
Proof.
  intros Hx Hy. pose proof (ltb_false_leb x y Hx Hy) as H.
  destruct (F64.ltb x y), (SFleb y x); intuition congruence.
Qed.

(** A record that follows another of its identifier stays in the frame
    exactly when less than 120 minutes passed since that record: it is
    dropped exactly when the elapsed minutes are 120 or more. *)
Theorem gap_exclusion_rule (df : list record) (i : nat) (x : rated) (p : record) :
  add_rates df !! i = Some x →
  previous_record df i = Some p →
  Time_Diff_Minutes x = Pandas.minutes_of_ns (Date (base x) - Date p) ∧
  (x ∈ gap_filter (add_rates df) ↔ SFleb gap_limit (Time_Diff_Minutes x) = false).
Proof.
  intros Hx Hprev. pose proof Hx as (_ & Htd & _)%add_rates_lookup.
  rewrite Hprev in Htd. simpl in Htd. split; [done|].
  unfold gap_filter. rewrite elem_of_bool_filter.
  rewrite ltb_true_leb; [|rewrite Htd; apply minutes_of_ns_not_nan|done].
  split; [by intros [_ ?]|]. intros Hle. split; [|done].
  by eapply list_elem_of_lookup_2.
Qed.

(** An identifier is listed in [latest_balances], and so has a row in the
    table, exactly when one of its records follows the previous one by
    less than 120 minutes. *)
Theorem latest_lists_identifier (df : list record) (id : string) :
  id ∈ map l_Peer_ID (latest_balances (compute_metrics df).1) ↔
  ∃ i r p, df !! i = Some r ∧ Peer_ID r = id ∧ previous_record df i = Some p ∧
           F64.ltb (Pandas.minutes_of_ns (Date r - Date p)) gap_limit = true.
Proof.
  assert (map l_Peer_ID (latest_balances (compute_metrics df).1) =
          group_keys String.le (map m_Peer_ID (compute_metrics df).1)) as ->.
  { unfold latest_balances. generalize (group_keys String.le
      (map m_Peer_ID (compute_metrics df).1)). intros ids.
    rewrite map_map. simpl. apply map_id. }
  rewrite elem_of_group_keys, map_fmap, list_elem_of_fmap. split.
  - intros (m & -> & Hm).
    rewrite working_frame_unfold in Hm. unfold add_hourly_columns in Hm.
    rewrite map_fmap in Hm. apply list_elem_of_fmap in Hm as (x & -> & Hx).
    apply elem_of_bool_filter in Hx as [[i Hx]%list_elem_of_lookup Hlt].
    pose proof Hx as (Hi & Htd & _)%add_rates_lookup.
    destruct (previous_record df i) as [p|] eqn:Hprev;
      [|simpl in Htd; by rewrite Htd in Hlt].
    exists i, (base x), p. simpl in Htd. by rewrite <- Htd.
  - intros (i & r & p & Hr & Hid & Hprev & Hlt).
    destruct (add_rates df !! i) as [x|] eqn:Hx.
    2:{ apply lookup_ge_None in Hx. rewrite add_rates_length in Hx.
        apply lookup_lt_Some in Hr. lia. }
    pose proof Hx as (Hi & Htd & _)%add_rates_lookup.
    assert (base x = r) as Hbase by congruence.
    rewrite Hprev in Htd. simpl in Htd. rewrite Hbase in Htd.
    exists (Metric x (F64.mul (Quil_Per_Minute x) (F64.of_Z 60))
                   (Pandas.floor_hour (Date (base x)))).
    split; [unfold m_Peer_ID; simpl; congruence|].
    rewrite working_frame_unfold. unfold add_hourly_columns. rewrite map_fmap.
    apply list_elem_of_fmap. exists x. split; [done|].
    apply elem_of_bool_filter. split; [by eapply list_elem_of_lookup_2|].
    by rewrite Htd.
Qed.

(** ** Instances *)
(** [working_row_invariants] at the second record of [two_hours]. *)
Lemma working_row_invariants_witness :
  ∃ i p, two_hours !! i = Some (base (rate second_of_two_hours)) ∧
         previous_record two_hours i = Some p ∧
         F64.ltb (Time_Diff_Minutes (rate second_of_two_hours)) gap_limit = true.
Proof.
  assert (second_of_two_hours ∈ (compute_metrics two_hours).1) as Hm.
  { apply list_elem_of_lookup. exists 0%nat. vm_compute. reflexivity. }
  destruct (working_row_invariants two_hours second_of_two_hours Hm)
    as (i & p & Hi & Hp & _ & _ & Hlt & _).
  by exists i, p.
Defined.
(** [gap_exclusion_rule] at the second record of [two_hours]. *)
Lemma gap_exclusion_rule_witness :
  rate second_of_two_hours ∈ gap_filter (add_rates two_hours).
Proof.
  destruct (gap_exclusion_rule two_hours 1 (rate second_of_two_hours)
              (mk_record 0 "QmA" (F64.of_Z 10) (Some "node-a"))
              ltac:(vm_compute; reflexivity) ltac:(vm_compute; reflexivity))
    as [_ Hiff].
  apply Hiff. vm_compute. reflexivity.
Defined.
(** [index_fails_on_bad_log] at a storage whose entry [old.csv] is a
    directory. *)
Lemma index_fails_on_bad_log_witness :
  ∃ e, index (λ _, Ok []) report_request odd_storage = (Raise e, odd_storage).
Proof.
  assert (Os.listdir odd_storage CSV_DIRECTORY = Ok ["old.csv"]) as Hls
    by (vm_compute; reflexivity).
  apply (index_fails_on_bad_log _ _ _ ["old.csv"] "old.csv" Hls).
  - by apply list_elem_of_singleton.
  - vm_compute. reflexivity.
  - exists IsADirectoryError. vm_compute. reflexivity.
Defined.
(** [update_balance_append_only] at a report sent to a storage that holds
    a file of notes. *)
Lemma update_balance_append_only_witness :
  ∃ added,
    files (update_balance (λ _, "") complete_report notes_only).2
      !! "/root/quiltracker/notes.txt" = Some ("to do" ++ added).
Proof.
  destruct (update_balance_append_only (λ _, "") complete_report notes_only
              "/root/quiltracker/notes.txt" "to do"
              ltac:(vm_compute; reflexivity)) as [_ H].
  exact H.
Defined.
(** [update_balance_other_files] at the same report and file. *)
Lemma update_balance_other_files_witness :
  files (update_balance (λ _, "") complete_report notes_only).2
    !! "/root/quiltracker/notes.txt" = Some "to do".
Proof.
  rewrite (update_balance_other_files (λ _, "") complete_report notes_only
             "/root/quiltracker/notes.txt").
  - vm_compute. reflexivity.
  - intros data peer_id [= <-] Hpid. vm_compute in Hpid.
    injection Hpid as <-. discriminate.
Defined.
(** [update_balance_logs_report] at a first report for [QmA]. *)
Lemma update_balance_logs_report_witness :
  ∃ row,
    files (update_balance (λ _, "") complete_report empty_storage).2
      !! "/root/quiltracker/node_balance_QmA.csv" = Some (header_row ++ row).
Proof.
  destruct (update_balance_logs_report (λ _, "") complete_report empty_storage
              ltac:(vm_compute; reflexivity))
    as (fields & peer_id & balance & timestamp & hostname & Hjson & Hp & _ & _ &
        _ & Hfs).
  exists (report_row (λ _, "") timestamp peer_id balance hostname).
  rewrite Hfs. injection Hjson as <-.
  vm_compute in Hp. injection Hp as <-.
  change (log_path (λ _, "") (JStr "QmA"))
    with "/root/quiltracker/node_balance_QmA.csv".
  simpl files. by rewrite lookup_insert_eq, lookup_empty.
Defined.
(** [accepted_report_is_listed] at the same report. *)
Lemma accepted_report_is_listed_witness :
  ∃ names,
    Os.listdir (update_balance (λ _, "") complete_report empty_storage).2
      CSV_DIRECTORY = Ok names ∧
    "node_balance_QmA.csv" ∈ names.
Proof.
  destruct (accepted_report_is_listed (λ _, "") complete_report empty_storage
              complete_fields "QmA" (JStr "12.5")
              (JStr "2024-05-01 10:00:00") (JStr "node-a"))
    as (names & Hls & Hin & _).
  - reflexivity.
  - vm_compute. reflexivity.
  - vm_compute. reflexivity.
  - vm_compute. reflexivity.
  - vm_compute. reflexivity.
  - reflexivity.
  - vm_compute. reflexivity.
  - exists names. split; [exact Hls|exact Hin].
Defined.
